(** * Movie rating prediction: the two entry scripts

    A shallow embedding of [main.py] and [jupyter_analysis.py].  Both scripts
    are straight-line orchestration over five collaborator classes
    ([DataLoader], [DataCleaner], [EDAAnalyzer], [FeatureEngineer],
    [MovieRatingPredictor]) whose code lives in other modules.  The
    collaborators are therefore a parameter of the development: an arbitrary
    handler that may change the program state, return a value or raise.  The
    scripts themselves are written in a small state/exception/trace monad. *)

From Stdlib Require Import String List ZArith QArith Lia.
From stdpp Require Import gmap strings list sorting pretty.
Import ListNotations.
Local Open Scope string_scope.

(** ** Python-level vocabulary *)

(** Exceptions.  [Failure] stands for whatever a collaborator raises. *)
Inductive exn :=
| IndexError
| KeyError (key : string)
| TypeError
| Failure (msg : string).

Inductive result (A : Type) :=
| Ok (a : A)
| Raise (e : exn).
Arguments Ok {A} a.
Arguments Raise {A} e.

(** One line of the evaluation table returned by [evaluate_models]; only the
    columns the scripts read are kept.  Scores are floats in the source and
    rationals here. *)
Record row := {
  Model : string;
  Test_R2 : Q;
  Test_RMSE : Q;
  Test_MAE : Q
}.

(** [table.iloc[0]]: the first row, [IndexError] on an empty table. *)
Definition iloc0 (t : list row) : result row :=
  match t with
  | [] => Raise IndexError
  | r :: _ => Ok r
  end.

(** The collaborator calls as they appear in a trace: the method and its
    literal arguments. *)
Inductive call :=
| C_DataLoader (path : string)
| C_load_data
| C_get_data_info
| C_get_basic_stats
| C_DataCleaner
| C_clean_data
| C_get_cleaned_summary
| C_EDAAnalyzer
| C_generate_comprehensive_report
| C_FeatureEngineer
| C_create_features
| C_prepare_for_ml (target_col : option string)
| C_MovieRatingPredictor
| C_train_models
| C_evaluate_models
| C_plot_model_comparison
| C_plot_predictions
| C_get_feature_importance
| C_hyperparameter_tuning (model_name : string).

(** What an observer of a run sees: a printed line, a call into a
    collaborator, and an exception leaving the place where it was raised. *)
Inductive event :=
| Print (line : string)
| Call (c : call)
| Raised (e : exn).

Definition nl : string := String (Ascii.ascii_of_nat 10) EmptyString.

(** Python's [s * n]. *)
Fixpoint repeat_str (s : string) (n : nat) : string :=
  match n with
  | O => EmptyString
  | S n' => s ++ repeat_str s n'
  end.

Definition csv_path : string := "data/IMDb Movies India.csv".

(** ** Observations on a trace *)

Definition call_of (ev : event) : option call :=
  match ev with
  | Call c => Some c
  | _ => None
  end.

Definition calls (t : list event) : list call := omap call_of t.

Definition printed (t : list event) : list string :=
  omap (fun ev => match ev with Print line => Some line | _ => None end) t.

Definition raised (t : list event) : list exn :=
  omap (fun ev => match ev with Raised e => Some e | _ => None end) t.



(** The two calls by which the scripts ask the predictor for a plot
    (main.py, lines 73-74; jupyter_analysis.py, lines 81-82). *)
Definition is_plot (c : call) : bool :=
  match c with
  | C_plot_model_comparison | C_plot_predictions => true
  | _ => false
  end.

Definition figures (t : list event) : list call :=
  List.filter is_plot (calls t).

(** The stages of the pipeline.  A collaborator call belongs to the stage of
    its class; the report stage is console output only and is recognised by
    its heading. *)
Inductive stage := Load | Clean | Explore | Engineer | Train | Report.

Global Instance stage_eq_dec : EqDecision stage.
Proof. solve_decision. Defined.

Definition stage_of_call (c : call) : stage :=
  match c with
  | C_DataLoader _ | C_load_data | C_get_data_info | C_get_basic_stats => Load
  | C_DataCleaner | C_clean_data | C_get_cleaned_summary => Clean
  | C_EDAAnalyzer | C_generate_comprehensive_report => Explore
  | C_FeatureEngineer | C_create_features | C_prepare_for_ml _ => Engineer
  | C_MovieRatingPredictor | C_train_models | C_evaluate_models
  | C_plot_model_comparison | C_plot_predictions | C_get_feature_importance
  | C_hyperparameter_tuning _ => Train
  end.

Definition report_heading (line : string) : bool :=
  String.eqb line "FINAL ANALYSIS REPORT"
  || String.eqb line "KEY INSIGHTS AND RECOMMENDATIONS".

Definition stage_of (ev : event) : option stage :=
  match ev with
  | Call c => Some (stage_of_call c)
  | Print line => if report_heading line then Some Report else None
  | Raised _ => None
  end.

(** Consecutive repetitions collapsed. *)
Fixpoint squash (l : list stage) : list stage :=
  match l with
  | [] => []
  | a :: rest =>
      match squash rest with
      | b :: tail => if decide (a = b) then b :: tail else a :: b :: tail
      | [] => [a]
      end
  end.

Definition stages (t : list event) : list stage := squash (omap stage_of t).

(** [line.startswith(p)], by recursion on [p]. *)
Fixpoint starts_with (p line : string) {struct p} : bool :=
  match p with
  | EmptyString => true
  | String a p' =>
      match line with
      | EmptyString => false
      | String b line' => Ascii.eqb a b && starts_with p' line'
      end
  end.

(** The line of main's report that names the best year. *)
Definition best_year_line (line : string) : bool :=
  starts_with "- Best year for movies: " line.

(** The lines of main's report that carry the best model and its metrics. *)
Definition best_model_line (line : string) : bool :=
  starts_with "- Model" line
  || starts_with "- Test " line
  || starts_with "- Average prediction error" line.

Definition pipeline_order : list stage :=
  [Load; Clean; Explore; Engineer; Train; Report].

(** The collaborator calls of a complete run of [main]. *)
Definition main_calls : list call :=
  [C_DataLoader csv_path; C_load_data; C_get_data_info; C_get_basic_stats;
   C_DataCleaner; C_clean_data; C_get_cleaned_summary;
   C_EDAAnalyzer; C_generate_comprehensive_report;
   C_FeatureEngineer; C_create_features; C_prepare_for_ml (Some "rating");
   C_MovieRatingPredictor; C_train_models; C_evaluate_models;
   C_plot_model_comparison; C_plot_predictions; C_get_feature_importance;
   C_hyperparameter_tuning "Random Forest";
   C_hyperparameter_tuning "Gradient Boosting";
   C_evaluate_models].

(** The collaborator calls of a complete run of [interactive_analysis]. *)
Definition interactive_calls : list call :=
  [C_DataLoader csv_path; C_load_data; C_get_data_info;
   C_DataCleaner; C_clean_data;
   C_EDAAnalyzer; C_generate_comprehensive_report;
   C_FeatureEngineer; C_create_features; C_prepare_for_ml None;
   C_MovieRatingPredictor; C_train_models; C_evaluate_models;
   C_plot_model_comparison; C_plot_predictions; C_get_feature_importance].

(** A call with its target column left to the default. *)
Definition forget_target (c : call) : call :=
  match c with
  | C_prepare_for_ml _ => C_prepare_for_ml None
  | _ => c
  end.

(** ** Ranking of the evaluation table *)

Definition by_test_r2 : relation row :=
  fun a b => (Test_R2 b <= Test_R2 a)%Q.

Global Instance by_test_r2_dec : RelDecision by_test_r2.
Proof.
  intros a b. unfold by_test_r2.
  destruct (Qlt_le_dec (Test_R2 a) (Test_R2 b)) as [Hlt | Hle].
  - right. intros Hle. exact (Qlt_not_le _ _ Hlt Hle).
  - left. exact Hle.
Defined.

(** Modelled from the spec: [MovieRatingPredictor.evaluate_models] is defined
    in src/ml_models.py, which is not part of the source tree.  The spec says
    of the modeling stage that it scores the fitted regressors and "ranks by
    test R²": the table is the scored models in descending order of their
    test R². *)
Definition rank_by_test_r2 (scored : list row) : list row :=
  merge_sort by_test_r2 scored.

(** ** Module-level statements *)

Inductive rc_value :=
| RcSize (width height : Z)
| RcOther (repr : string).

(** An entry of [warnings.filters]: the tuple
    [(action, message, category, module, lineno)]. *)
Record warning_filter := {
  action : string;
  message : option string;
  category : string;
  module_pattern : option string;
  lineno : Z
}.

Global Instance warning_filter_eq_dec : EqDecision warning_filter.
Proof. solve_decision. Defined.

(** The entry [filterwarnings(action)] builds when it is given the action
    alone: any message, category [Warning], any module, any line. *)
Definition simple_filter (action : string) : warning_filter :=
  {| action := action;
     message := None;
     category := "Warning";
     module_pattern := None;
     lineno := 0 |}.

(** [filters.remove(item)], with the [ValueError] of a missing item passed
    over: the first entry equal to [item] goes. *)
Fixpoint remove_first (item : warning_filter) (filters : list warning_filter)
  : list warning_filter :=
  match filters with
  | [] => []
  | f :: rest =>
      if decide (f = item) then rest else f :: remove_first item rest
  end.

(** The entries other than [item], in their order. *)
Definition other_filters (item : warning_filter)
    (filters : list warning_filter) : list warning_filter :=
  List.filter (fun f => bool_decide (f <> item)) filters.

(** The interpreter-wide state the module-level statements touch: the list
    of warning filters and matplotlib's [rcParams]. *)
Record globals := {
  warnings_filters : list warning_filter;
  rcParams : gmap string rc_value
}.

Section ModuleLevel.

(** [plt.style.use] and [sns.set_palette] rewrite [rcParams] in ways that
    belong to those libraries. *)
Variable style_use : string -> gmap string rc_value -> gmap string rc_value.
Variable set_palette : string -> gmap string rc_value -> gmap string rc_value.

(** [warnings.filterwarnings(action)]: an entry equal to the new one is
    taken out of the list, then the new one is put in front. *)
Definition filterwarnings (action : string) (g : globals) : globals :=
  let item := simple_filter action in
  {| warnings_filters := item :: remove_first item (warnings_filters g);
     rcParams := rcParams g |}.

(** main.py, lines 16-17. *)
Definition main_module_level (g : globals) : globals :=
  filterwarnings "ignore" g.

(** jupyter_analysis.py, lines 16-22. *)
Definition jupyter_module_level (g : globals) : globals :=
  let g1 := filterwarnings "ignore" g in
  let rc1 := style_use "seaborn-v0_8" (rcParams g1) in
  let rc2 := set_palette "husl" rc1 in
  {| warnings_filters := warnings_filters g1;
     rcParams := <["figure.figsize" := RcSize 12 8]> rc2 |}.

End ModuleLevel.

(** The frame condition in the spec's words: a module's top-level statements
    change the warning filters and nothing else. *)
Definition only_warnings_touched (module_level : globals -> globals) : Prop :=
  forall g, rcParams (module_level g) = rcParams g.

(** Whether a pipeline function returned a dictionary, and which. *)
Definition completed {D} (r : result (option D)) : bool :=
  match r with
  | Ok (Some _) => true
  | _ => false
  end.

Definition dict_of {V} (r : result (option (gmap string V)))
  : gmap string V :=
  match r with
  | Ok (Some d) => d
  | _ => ∅
  end.

Section Pipeline.

(** The program state owned by the collaborators (objects, the file system,
    the plotting back end), the object handles and the data values. *)
Context {heap : Type}.
Context {loader cleaner analyzer engineer predictor : Type}.
Context {frame series summary pd_row importance : Type}.

(** The signature of the collaborator classes, as the scripts use them. *)
Inductive method : Type -> Type :=
| DataLoader (path : string) : method loader
| load_data (self : loader) : method (option frame)
| get_data_info (self : loader) : method unit
| get_basic_stats (self : loader) : method unit
| DataCleaner (df : frame) : method cleaner
| clean_data (self : cleaner) : method frame
| get_cleaned_summary (self : cleaner) : method summary
| EDAAnalyzer (df : frame) : method analyzer
| generate_comprehensive_report (self : analyzer)
    : method (gmap string (option frame))
| FeatureEngineer (df : frame) : method engineer
| create_features (self : engineer) : method frame
| prepare_for_ml (self : engineer) (target_col : option string)
    : method (frame * series)
| MovieRatingPredictor (X : frame) (y : series) : method predictor
| train_models (self : predictor) : method unit
| evaluate_models (self : predictor) : method (list row)
| plot_model_comparison (self : predictor) : method unit
| plot_predictions (self : predictor) : method unit
| get_feature_importance (self : predictor) : method importance
| hyperparameter_tuning (self : predictor) (model_name : string)
    : method unit.

Definition name_of {A} (m : method A) : call :=
  match m with
  | DataLoader path => C_DataLoader path
  | load_data _ => C_load_data
  | get_data_info _ => C_get_data_info
  | get_basic_stats _ => C_get_basic_stats
  | DataCleaner _ => C_DataCleaner
  | clean_data _ => C_clean_data
  | get_cleaned_summary _ => C_get_cleaned_summary
  | EDAAnalyzer _ => C_EDAAnalyzer
  | generate_comprehensive_report _ => C_generate_comprehensive_report
  | FeatureEngineer _ => C_FeatureEngineer
  | create_features _ => C_create_features
  | prepare_for_ml _ target_col => C_prepare_for_ml target_col
  | MovieRatingPredictor _ _ => C_MovieRatingPredictor
  | train_models _ => C_train_models
  | evaluate_models _ => C_evaluate_models
  | plot_model_comparison _ => C_plot_model_comparison
  | plot_predictions _ => C_plot_predictions
  | get_feature_importance _ => C_get_feature_importance
  | hyperparameter_tuning _ model_name => C_hyperparameter_tuning model_name
  end.

(** The collaborators: any behaviour at all. *)
Variable lib : forall A, method A -> heap -> result A * heap.

(** The dataframe operations and the f-string conversions the scripts use
    directly.  Subscripts can raise; attribute reads and aggregates are
    taken as total. *)
Record pandas := {
  frame_len : frame -> Z;                       (* len(df) *)
  frame_shape : frame -> string;                (* f"{df.shape}" *)
  frame_columns : frame -> string;              (* f"{list(df.columns)}" *)
  shape1 : frame -> Z;                          (* X.shape[1] *)
  frame_col : frame -> string -> result series; (* df[col] *)
  series_mean : series -> Q;
  series_std : series -> Q;
  series_min : series -> Q;
  series_max : series -> Q;
  summary_item : summary -> string -> result string;  (* f"{summary[k]}" *)
  idxmax_row : frame -> string -> result pd_row;  (* df.loc[df[c].idxmax()] *)
  idxmax_at : frame -> string -> string -> result string;
                                      (* f"{df.loc[df[c].idxmax(), k]}" *)
  frame_iloc0 : frame -> result pd_row;         (* df.iloc[0] *)
  row_item_str : pd_row -> string -> result string;   (* f"{row[k]}" *)
  row_item_num : pd_row -> string -> result Q;        (* row[k], a number *)
  row_name : pd_row -> option string;           (* row.name, if it has one *)
  fmt_fixed : nat -> Q -> string;               (* f"{x:.nf}" *)
  fmt_percent : nat -> Q -> string;             (* f"{x:.n%}" *)
  fmt_thousands : Z -> string;                  (* f"{n:,}" *)
  str_int : Z -> string                         (* f"{n}" *)
}.

Variable pd : pandas.

(** ** The monad of the scripts *)

Definition M (A : Type) : Type := heap -> result A * heap * list event.

Definition ret {A} (a : A) : M A := fun h => (Ok a, h, []).

Definition bind {A B} (m : M A) (k : A -> M B) : M B :=
  fun h =>
    match m h with
    | (Ok a, h1, t1) =>
        match k a h1 with
        | (r, h2, t2) => (r, h2, (t1 ++ t2)%list)
        end
    | (Raise e, h1, t1) => (Raise e, h1, t1)
    end.

Definition print (line : string) : M unit :=
  fun h => (Ok tt, h, [Print line]).

(** A collaborator call: logged, then its exception (if any) leaves. *)
Definition invoke {A} (m : method A) : M A :=
  fun h =>
    match lib A m h with
    | (Ok a, h1) => (Ok a, h1, [Call (name_of m)])
    | (Raise e, h1) => (Raise e, h1, [Call (name_of m); Raised e])
    end.

(** A dataframe operation that can raise. *)
Definition lift {A} (r : result A) : M A :=
  fun h =>
    match r with
    | Ok a => (Ok a, h, [])
    | Raise e => (Raise e, h, [Raised e])
    end.

Definition raise {A} (e : exn) : M A := lift (Raise e).

Notation "'let*' x ':=' m 'in' k" := (bind m (fun x => k))
  (at level 10, x name, m at level 100, k at level 200).
Notation "'let*' ' p ':=' m 'in' k" :=
  (bind m (fun x => match x with p => k end))
  (at level 10, p pattern, m at level 100, k at level 200).
Notation "m >> k" := (bind m (fun _ => k))
  (at level 100, k at level 200, right associativity).

Definition banner (n : nat) : string := repeat_str "=" n.

(** The dictionary values of the scripts' results. *)
Inductive value :=
| VFrame (df : frame)
| VSeries (y : series)
| VResults (t : list row)
| VReport (r : gmap string (option frame))
| VPredictor (p : predictor)
| VImportance (i : importance).

(** ** main.py *)

(** [main()], lines 19-124.  [None] is Python's [None]. *)
Definition main : M (option (gmap string value)) :=
  print (banner 60) >>
  print "MOVIE RATING PREDICTION SYSTEM" >>
  print (banner 60) >>
  (* Step 1: Load Data *)
  print (nl ++ "1. LOADING DATA...") >>
  let* data_loader := invoke (DataLoader csv_path) in
  let* df := invoke (load_data data_loader) in
  match df with
  | None =>
      print "Failed to load data. Please check the file path." >>
      ret None
  | Some df =>
      invoke (get_data_info data_loader) >>
      invoke (get_basic_stats data_loader) >>
      (* Step 2: Clean Data *)
      print (nl ++ "2. CLEANING DATA...") >>
      let* cleaner := invoke (DataCleaner df) in
      let* df_clean := invoke (clean_data cleaner) in
      let* summary := invoke (get_cleaned_summary cleaner) in
      print (nl ++ "Cleaning Summary:") >>
      let* shape := lift (summary_item pd summary "shape") in
      print ("Final shape: " ++ shape) >>
      let* missing := lift (summary_item pd summary "missing_values") in
      print ("Missing values: " ++ missing) >>
      (* Step 3: Exploratory Data Analysis *)
      print (nl ++ "3. EXPLORATORY DATA ANALYSIS...") >>
      let* eda := invoke (EDAAnalyzer df_clean) in
      let* eda_report := invoke (generate_comprehensive_report eda) in
      (* Step 4: Feature Engineering *)
      print (nl ++ "4. FEATURE ENGINEERING...") >>
      let* feature_engineer := invoke (FeatureEngineer df_clean) in
      let* df_features := invoke (create_features feature_engineer) in
      let* '(X, y) :=
        invoke (prepare_for_ml feature_engineer (Some "rating")) in
      (* Step 5: Machine Learning Models *)
      print (nl ++ "5. MACHINE LEARNING MODELING...") >>
      let* predictor := invoke (MovieRatingPredictor X y) in
      invoke (train_models predictor) >>
      let* results_df := invoke (evaluate_models predictor) in
      invoke (plot_model_comparison predictor) >>
      invoke (plot_predictions predictor) >>
      let* importance_df := invoke (get_feature_importance predictor) in
      (* Hyperparameter tuning for best model *)
      print (nl ++ "6. HYPERPARAMETER TUNING...") >>
      invoke (hyperparameter_tuning predictor "Random Forest") >>
      invoke (hyperparameter_tuning predictor "Gradient Boosting") >>
      (* Final evaluation *)
      let* final_results := invoke (evaluate_models predictor) in
      (* Step 6: Generate Final Report *)
      print (nl ++ banner 60) >>
      print "FINAL ANALYSIS REPORT" >>
      print (banner 60) >>
      print (nl ++ "Dataset Summary:") >>
      print ("- Total movies analyzed: "
               ++ fmt_thousands pd (frame_len pd df_clean)) >>
      print ("- Features engineered: " ++ str_int pd (shape1 pd X)) >>
      print ("- Average rating: " ++ fmt_fixed pd 2 (series_mean pd y)) >>
      print ("- Rating standard deviation: "
               ++ fmt_fixed pd 2 (series_std pd y)) >>
      print (nl ++ "Best Model Performance:") >>
      let* best_model_row := lift (iloc0 final_results) in
      print ("- Model: " ++ Model best_model_row) >>
      print ("- Test R²: " ++ fmt_fixed pd 4 (Test_R2 best_model_row)) >>
      print ("- Test RMSE: " ++ fmt_fixed pd 4 (Test_RMSE best_model_row)) >>
      print ("- Test MAE: " ++ fmt_fixed pd 4 (Test_MAE best_model_row)) >>
      print (nl ++ "Key Insights:") >>
      match eda_report !! "yearly_ratings" with
      | Some (Some yearly) =>
          let* best_year := lift (idxmax_row pd yearly "mean") in
          let* year := lift (row_item_str pd best_year "year") in
          let* mean := lift (row_item_num pd best_year "mean") in
          print ("- Best year for movies: " ++ year
                   ++ " (avg rating: " ++ fmt_fixed pd 2 mean ++ ")")
      | _ => ret tt
      end >>
      print ("- Model can predict movie ratings with "
               ++ fmt_percent pd 1 (Test_R2 best_model_row)
               ++ " accuracy") >>
      print ("- Average prediction error: ±"
               ++ fmt_fixed pd 2 (Test_RMSE best_model_row)
               ++ " rating points") >>
      print (nl ++ banner 60) >>
      print "ANALYSIS COMPLETED SUCCESSFULLY!" >>
      print (banner 60) >>
      ret (Some (list_to_map
                   [("cleaned_data", VFrame df_clean);
                    ("features", VFrame X);
                    ("target", VSeries y);
                    ("model_results", VResults final_results);
                    ("eda_report", VReport eda_report);
                    ("predictor", VPredictor predictor)]))
  end.

(** The text printed by the [__main__] block of main.py, lines 130-155. *)
Definition main_epilogue : list string :=
  [nl ++ banner 60;
   "ADDITIONAL ANALYSIS SUGGESTIONS";
   banner 60;
   nl ++ "1. Future Predictions:";
   "   - Predict ratings for upcoming movies";
   "   - Analyze trends in movie preferences";
   "   - Identify factors that lead to high ratings";
   nl ++ "2. Business Applications:";
   "   - Help producers understand what makes a successful movie";
   "   - Assist in movie recommendation systems";
   "   - Guide investment decisions in film production";
   nl ++ "3. Further Analysis:";
   "   - Sentiment analysis of movie descriptions";
   "   - Network analysis of actor-director collaborations";
   "   - Time series analysis of rating trends";
   "   - Regional preferences analysis";
   nl ++ "4. Model Improvements:";
   "   - Ensemble methods combining multiple models";
   "   - Deep learning approaches";
   "   - Feature selection optimization";
   "   - Cross-validation with time-based splits"].

Fixpoint print_all (lines : list string) : M unit :=
  match lines with
  | [] => ret tt
  | line :: rest => print line >> print_all rest
  end.

(** The [__main__] block of main.py, lines 126-155.  [argv] is the command
    line the interpreter was started with. *)
Definition main_script (argv : list string)
  : M (option (gmap string value)) :=
  let* results := main in
  print_all main_epilogue >>
  ret results.

(** ** jupyter_analysis.py *)

(** [load_and_explore_data()], lines 24-39. *)
Definition load_and_explore_data : M (option frame) :=
  print "Loading and exploring data..." >>
  let* loader := invoke (DataLoader csv_path) in
  let* df := invoke (load_data loader) in
  match df with
  | None =>
      print "Error: Could not load data file" >>
      ret None
  | Some df =>
      invoke (get_data_info loader) >>
      ret (Some df)
  end.

(** [clean_and_preprocess(df)], lines 41-51. *)
Definition clean_and_preprocess (df : frame) : M frame :=
  print (nl ++ "Cleaning and preprocessing data...") >>
  let* cleaner := invoke (DataCleaner df) in
  let* df_clean := invoke (clean_data cleaner) in
  print ("Cleaned data shape: " ++ frame_shape pd df_clean) >>
  print ("Columns: " ++ frame_columns pd df_clean) >>
  ret df_clean.

(** [perform_eda(df)], lines 53-62. *)
Definition perform_eda (df : frame) : M (gmap string (option frame)) :=
  print (nl ++ "Performing Exploratory Data Analysis...") >>
  let* analyzer := invoke (EDAAnalyzer df) in
  let* report := invoke (generate_comprehensive_report analyzer) in
  ret report.

(** [build_and_evaluate_models(df)], lines 64-87. *)
Definition build_and_evaluate_models (df : frame)
  : M (predictor * list row * importance) :=
  print (nl ++ "Building and evaluating machine learning models...") >>
  let* engineer := invoke (FeatureEngineer df) in
  let* df_features := invoke (create_features engineer) in
  let* '(X, y) := invoke (prepare_for_ml engineer None) in
  let* predictor := invoke (MovieRatingPredictor X y) in
  invoke (train_models predictor) >>
  let* results := invoke (evaluate_models predictor) in
  invoke (plot_model_comparison predictor) >>
  invoke (plot_predictions predictor) >>
  let* importance := invoke (get_feature_importance predictor) in
  ret (predictor, results, importance).

(** [generate_insights(df, eda_report, model_results)], lines 89-127. *)
Definition generate_insights (df : frame)
    (eda_report : gmap string (option frame)) (model_results : list row)
  : M unit :=
  print (nl ++ banner 50) >>
  print "KEY INSIGHTS AND RECOMMENDATIONS" >>
  print (banner 50) >>
  print (nl ++ "1. DATASET OVERVIEW:") >>
  print ("   - Total movies: " ++ fmt_thousands pd (frame_len pd df)) >>
  let* rating := lift (frame_col pd df "rating") in
  print ("   - Average rating: " ++ fmt_fixed pd 2 (series_mean pd rating)) >>
  let* rating_lo := lift (frame_col pd df "rating") in
  let* rating_hi := lift (frame_col pd df "rating") in
  print ("   - Rating range: " ++ fmt_fixed pd 1 (series_min pd rating_lo)
           ++ " - " ++ fmt_fixed pd 1 (series_max pd rating_hi)) >>
  match eda_report !! "yearly_ratings" with
  | Some (Some yearly_data) =>
      let* best_year := lift (idxmax_row pd yearly_data "mean") in
      print (nl ++ "2. TEMPORAL INSIGHTS:") >>
      let* year := lift (row_item_str pd best_year "year") in
      let* mean := lift (row_item_num pd best_year "mean") in
      print ("   - Best year for movies: " ++ year
               ++ " (avg: " ++ fmt_fixed pd 2 mean ++ ")") >>
      let* busiest := lift (idxmax_at pd yearly_data "count" "year") in
      print ("   - Most productive year: " ++ busiest)
  | _ => ret tt
  end >>
  match eda_report !! "genre_analysis" with
  | Some (Some genre_analysis) =>
      if (0 <? frame_len pd genre_analysis)%Z then
        print (nl ++ "3. GENRE INSIGHTS:") >>
        let* top_genre := lift (frame_iloc0 pd genre_analysis) in
        print ("   - Highest rated genre: "
                 ++ match row_name pd top_genre with
                    | Some name => name
                    | None => "N/A"
                    end)
      else ret tt
  | Some None => raise TypeError          (* len(None) *)
  | None => ret tt
  end >>
  print (nl ++ "4. MODEL PERFORMANCE:") >>
  let* best_model := lift (iloc0 model_results) in
  print ("   - Best model: " ++ Model best_model) >>
  print ("   - Prediction accuracy (R²): "
           ++ fmt_percent pd 1 (Test_R2 best_model)) >>
  print ("   - Average error (RMSE): ±"
           ++ fmt_fixed pd 2 (Test_RMSE best_model) ++ " points") >>
  print (nl ++ "5. RECOMMENDATIONS:") >>
  print "   - Focus on factors that correlate with high ratings" >>
  print "   - Consider ensemble methods for better predictions" >>
  print "   - Collect more recent data for trend analysis" >>
  print "   - Include additional features like budget, box office".

(** [interactive_analysis()], lines 129-158. *)
Definition interactive_analysis : M (option (gmap string value)) :=
  print (banner 60) >>
  print "INTERACTIVE MOVIE RATING ANALYSIS" >>
  print (banner 60) >>
  (* Step 1: Load data *)
  let* df := load_and_explore_data in
  match df with
  | None => ret None
  | Some df =>
      (* Step 2: Clean data *)
      let* df_clean := clean_and_preprocess df in
      (* Step 3: EDA *)
      let* eda_report := perform_eda df_clean in
      (* Step 4: ML Models *)
      let* '(predictor, model_results, importance) :=
        build_and_evaluate_models df_clean in
      (* Step 5: Insights *)
      generate_insights df_clean eda_report model_results >>
      ret (Some (list_to_map
                   [("data", VFrame df_clean);
                    ("eda_report", VReport eda_report);
                    ("model_results", VResults model_results);
                    ("predictor", VPredictor predictor);
                    ("feature_importance", VImportance importance)]))
  end.

(** The text printed by the [__main__] block of jupyter_analysis.py, lines
    164-171. *)
Definition interactive_epilogue : list string :=
  [nl ++ banner 60;
   "ANALYSIS COMPLETE!";
   banner 60;
   nl ++ "You can now:";
   "1. Examine the results dictionary for detailed outputs";
   "2. Use the trained models for predictions";
   "3. Explore additional visualizations";
   "4. Extend the analysis with new features"].

(** The [__main__] block of jupyter_analysis.py, lines 160-171. *)
Definition interactive_script (argv : list string)
  : M (option (gmap string value)) :=
  let* results := interactive_analysis in
  print_all interactive_epilogue >>
  ret results.

(** ** Exceptions leave the scripts

    A computation is transparent to exceptions when an exception raised
    inside it ends it: nothing is raised in a run that returns, and a run
    that raises stops at the place of the exception. *)
Definition quiet (t : list event) : Prop := raised t = [].

Definition transparent {A} (m : M A) : Prop :=
  forall h,
    match m h with
    | (Ok _, _, t) => quiet t
    | (Raise e, _, t) => exists t0, t = (t0 ++ [Raised e])%list /\ quiet t0
    end.

(** ** The failed load *)

Definition main_early_exit : list event :=
  [Print (banner 60);
   Print "MOVIE RATING PREDICTION SYSTEM";
   Print (banner 60);
   Print (nl ++ "1. LOADING DATA...");
   Call (C_DataLoader csv_path);
   Call C_load_data;
   Print "Failed to load data. Please check the file path."].

Definition interactive_early_exit : list event :=
  [Print (banner 60);
   Print "INTERACTIVE MOVIE RATING ANALYSIS";
   Print (banner 60);
   Print "Loading and exploring data...";
   Call (C_DataLoader csv_path);
   Call C_load_data;
   Print "Error: Could not load data file"].

(** ** The closing text

    What the console shows at the end of a run of main.py, as lines 130-155
    write it. *)
Definition main_closing_text : list string :=
  [nl ++ "============================================================";
   "ADDITIONAL ANALYSIS SUGGESTIONS";
   "============================================================";
   nl ++ "1. Future Predictions:";
   "   - Predict ratings for upcoming movies";
   "   - Analyze trends in movie preferences";
   "   - Identify factors that lead to high ratings";
   nl ++ "2. Business Applications:";
   "   - Help producers understand what makes a successful movie";
   "   - Assist in movie recommendation systems";
   "   - Guide investment decisions in film production";
   nl ++ "3. Further Analysis:";
   "   - Sentiment analysis of movie descriptions";
   "   - Network analysis of actor-director collaborations";
   "   - Time series analysis of rating trends";
   "   - Regional preferences analysis";
   nl ++ "4. Model Improvements:";
   "   - Ensemble methods combining multiple models";
   "   - Deep learning approaches";
   "   - Feature selection optimization";
   "   - Cross-validation with time-based splits"].

(** The same for jupyter_analysis.py, lines 164-171. *)
Definition interactive_closing_text : list string :=
  [nl ++ "============================================================";
   "ANALYSIS COMPLETE!";
   "============================================================";
   nl ++ "You can now:";
   "1. Examine the results dictionary for detailed outputs";
   "2. Use the trained models for predictions";
   "3. Explore additional visualizations";
   "4. Extend the analysis with new features"].

(** The loader was built on the fixed path and [load_data] returned [None]. *)
Definition load_fails (h h' : heap) : Prop :=
  exists ld h1,
    lib _ (DataLoader csv_path) h = (Ok ld, h1) /\
    lib _ (load_data ld) h1 = (Ok None, h').

(** ** What every run does

    [follows f m xs]: what [f] selects from the trace of [m] is, whatever
    happens, an initial segment of [xs]; it is all of [xs] when [m] returns
    a dictionary. *)
Definition follows {X D} (f : event -> option X) (m : M (option D))
    (xs : list X) : Prop :=
  forall h,
    omap f (m h).2 `prefix_of` xs /\
    forall d, (m h).1.1 = Ok (Some d) -> omap f (m h).2 = xs.

(** [m] does not return [None]. *)
Definition never_none {D} (m : M (option D)) : Prop :=
  forall h h' t, m h <> (Ok None, h', t).

(** The stage of every call of a complete run, then the report. *)
Definition main_stages : list stage :=
  (map stage_of_call main_calls ++ [Report])%list.

Definition interactive_stages : list stage :=
  (map stage_of_call interactive_calls ++ [Report])%list.

(** ** Completed runs, call by call *)

(** The collaborator call [m], made in state [h], returns [a] and leaves
    state [h']. *)
Definition returns {A} (m : method A) (h : heap) (a : A) (h' : heap) : Prop :=
  lib A m h = (Ok a, h').

(** The collaborator calls of a run of [main] that returns dictionary [d]. *)
Definition main_path (h h' : heap) (d : gmap string value) : Prop :=
  exists data_loader df cleaner df_clean summary eda eda_report
         feature_engineer df_features X y predictor results_df importance_df
         final_results,
  exists h1 h2 h3 h4 h5 h6 h7 h8 h9 h10,
  exists h11 h12 h13 h14 h15 h16 h17 h18 h19 h20,
    returns (DataLoader csv_path) h data_loader h1 /\
    returns (load_data data_loader) h1 (Some df) h2 /\
    returns (get_data_info data_loader) h2 tt h3 /\
    returns (get_basic_stats data_loader) h3 tt h4 /\
    returns (DataCleaner df) h4 cleaner h5 /\
    returns (clean_data cleaner) h5 df_clean h6 /\
    returns (get_cleaned_summary cleaner) h6 summary h7 /\
    returns (EDAAnalyzer df_clean) h7 eda h8 /\
    returns (generate_comprehensive_report eda) h8 eda_report h9 /\
    returns (FeatureEngineer df_clean) h9 feature_engineer h10 /\
    returns (create_features feature_engineer) h10 df_features h11 /\
    returns (prepare_for_ml feature_engineer (Some "rating")) h11 (X, y) h12 /\
    returns (MovieRatingPredictor X y) h12 predictor h13 /\
    returns (train_models predictor) h13 tt h14 /\
    returns (evaluate_models predictor) h14 results_df h15 /\
    returns (plot_model_comparison predictor) h15 tt h16 /\
    returns (plot_predictions predictor) h16 tt h17 /\
    returns (get_feature_importance predictor) h17 importance_df h18 /\
    returns (hyperparameter_tuning predictor "Random Forest") h18 tt h19 /\
    returns (hyperparameter_tuning predictor "Gradient Boosting") h19 tt h20 /\
    returns (evaluate_models predictor) h20 final_results h' /\
    d = list_to_map
          [("cleaned_data", VFrame df_clean);
           ("features", VFrame X);
           ("target", VSeries y);
           ("model_results", VResults final_results);
           ("eda_report", VReport eda_report);
           ("predictor", VPredictor predictor)].

(** The collaborator calls of a run of [interactive_analysis] that returns
    dictionary [d]. *)
Definition interactive_path (h h' : heap) (d : gmap string value) : Prop :=
  exists loader df cleaner df_clean analyzer eda_report
         engineer df_features X y predictor results importance,
  exists h1 h2 h3 h4 h5 h6 h7 h8 h9 h10 h11 h12 h13 h14 h15,
    returns (DataLoader csv_path) h loader h1 /\
    returns (load_data loader) h1 (Some df) h2 /\
    returns (get_data_info loader) h2 tt h3 /\
    returns (DataCleaner df) h3 cleaner h4 /\
    returns (clean_data cleaner) h4 df_clean h5 /\
    returns (EDAAnalyzer df_clean) h5 analyzer h6 /\
    returns (generate_comprehensive_report analyzer) h6 eda_report h7 /\
    returns (FeatureEngineer df_clean) h7 engineer h8 /\
    returns (create_features engineer) h8 df_features h9 /\
    returns (prepare_for_ml engineer None) h9 (X, y) h10 /\
    returns (MovieRatingPredictor X y) h10 predictor h11 /\
    returns (train_models predictor) h11 tt h12 /\
    returns (evaluate_models predictor) h12 results h13 /\
    returns (plot_model_comparison predictor) h13 tt h14 /\
    returns (plot_predictions predictor) h14 tt h15 /\
    returns (get_feature_importance predictor) h15 importance h' /\
    d = list_to_map
          [("data", VFrame df_clean);
           ("eda_report", VReport eda_report);
           ("model_results", VResults results);
           ("predictor", VPredictor predictor);
           ("feature_importance", VImportance importance)].

(** ** The two scripts side by side *)

(** The equivalence of the two pipelines in the spec's words: started in the
    same state, the two functions make the same sequence of collaborator
    calls and return the same model-results table. *)
Definition same_pipeline (h : heap) : Prop :=
  forall dm hm tm dj hj tj,
    main h = (Ok (Some dm), hm, tm) ->
    interactive_analysis h = (Ok (Some dj), hj, tj) ->
    calls tm = calls tj /\ dm !! "model_results" = dj !! "model_results".

(** The two reporting calls only main makes leave the state as it is. *)
Definition reporting_is_read_only : Prop :=
  (forall self h, (lib _ (get_basic_stats self) h).2 = h) /\
  (forall self h, (lib _ (get_cleaned_summary self) h).2 = h).

(** [prepare_for_ml()] takes ['rating'] as its target column. *)
Definition default_target_is_rating : Prop :=
  forall self h,
    lib _ (prepare_for_ml self None) h =
    lib _ (prepare_for_ml self (Some "rating")) h.

(** ** Reporting only *)

(** [m] changes no state and calls no collaborator, whatever its outcome. *)
Definition read_only {A} (m : M A) : Prop :=
  forall h, (m h).1.2 = h /\ calls (m h).2 = [].

(** [m] never returns: every run of it raises. *)
Definition never_returns {A} (m : M A) : Prop :=
  forall h a h' t, m h <> (Ok a, h', t).

(** The headings of the two optional sections of [generate_insights]. *)
Definition temporal_heading : string := nl ++ "2. TEMPORAL INSIGHTS:".
Definition genre_heading : string := nl ++ "3. GENRE INSIGHTS:".

(** ** Inputs and outputs *)




End Pipeline.

(** ** A small concrete world

    A stand-in for the collaborators, used to run the scripts: the CSV either
    loads or does not, its rows are either well formed or not, and tuning a
    model improves its scores. *)
Module Demo.

Record heap := {
  csv : option nat;          (* the rows of the CSV at [csv_path], if any *)
  malformed : bool;          (* the cleaner chokes on the rows *)
  tuned : list string        (* the models tuned so far *)
}.

Definition is_tuned (name : string) (h : heap) : bool :=
  bool_decide (name ∈ tuned h).

Definition scores (h : heap) : list row :=
  [ {| Model := "Linear Regression";
       Test_R2 := 30 # 100; Test_RMSE := 110 # 100; Test_MAE := 90 # 100 |};
    (if is_tuned "Random Forest" h then
       {| Model := "Random Forest";
          Test_R2 := 45 # 100; Test_RMSE := 95 # 100; Test_MAE := 75 # 100 |}
     else
       {| Model := "Random Forest";
          Test_R2 := 35 # 100; Test_RMSE := 105 # 100; Test_MAE := 85 # 100 |});
    (if is_tuned "Gradient Boosting" h then
       {| Model := "Gradient Boosting";
          Test_R2 := 42 # 100; Test_RMSE := 98 # 100; Test_MAE := 78 # 100 |}
     else
       {| Model := "Gradient Boosting";
          Test_R2 := 40 # 100; Test_RMSE := 100 # 100; Test_MAE := 80 # 100 |})
  ].

(** Handles carry no data; a frame is its number of rows. *)
Definition lib (A : Type)
    (m : @method unit unit unit unit unit nat unit unit unit A) (h : heap)
  : result A * heap :=
  match m in method A return result A * heap with
  | DataLoader _ => (Ok tt, h)
  | load_data _ => (Ok (csv h), h)
  | get_data_info _ => (Ok tt, h)
  | get_basic_stats _ => (Ok tt, h)
  | DataCleaner _ => (Ok tt, h)
  | clean_data _ =>
      if malformed h then (Raise (Failure "malformed rows"), h)
      else (Ok (default 0 (csv h)), h)
  | get_cleaned_summary _ => (Ok tt, h)
  | EDAAnalyzer _ => (Ok tt, h)
  | generate_comprehensive_report _ =>
      (Ok (list_to_map [("yearly_ratings", Some 40);
                        ("genre_analysis", Some 12)]), h)
  | FeatureEngineer _ => (Ok tt, h)
  | create_features self => (Ok (default 0 (csv h)), h)
  | prepare_for_ml _ _ => (Ok (default 0 (csv h), tt), h)
  | MovieRatingPredictor _ _ => (Ok tt, h)
  | train_models _ => (Ok tt, h)
  | evaluate_models _ => (Ok (rank_by_test_r2 (scores h)), h)
  | plot_model_comparison _ => (Ok tt, h)
  | plot_predictions _ => (Ok tt, h)
  | get_feature_importance _ => (Ok tt, h)
  | hyperparameter_tuning _ name =>
      (Ok tt, {| csv := csv h; malformed := malformed h;
                 tuned := name :: tuned h |})
  end.

Definition pd : @pandas nat unit unit unit :=
  {| frame_len := Z.of_nat;
     frame_shape := fun _ => "(rows, columns)";
     frame_columns := fun _ => "[columns]";
     shape1 := fun _ => 7%Z;
     frame_col := fun _ _ => Ok tt;
     series_mean := fun _ => 59 # 10;
     series_std := fun _ => 14 # 10;
     series_min := fun _ => 11 # 10;
     series_max := fun _ => 10 # 1;
     summary_item := fun _ key => Ok key;
     idxmax_row := fun _ _ => Ok tt;
     idxmax_at := fun _ _ key => Ok key;
     frame_iloc0 := fun _ => Ok tt;
     row_item_str := fun _ key => Ok key;
     row_item_num := fun _ _ => Ok (73 # 10);
     row_name := fun _ => Some "Documentary";
     fmt_fixed := fun _ q => pretty (Qnum q) ++ "/" ++ pretty (Zpos (Qden q));
     fmt_percent := fun _ q => pretty (Qnum q) ++ "%";
     fmt_thousands := pretty;
     str_int := pretty |}.

(** A plotting back end that leaves [rcParams] to the script. *)
Definition style_use (name : string) (rc : gmap string rc_value)
  : gmap string rc_value := rc.
Definition set_palette (name : string) (rc : gmap string rc_value)
  : gmap string rc_value := rc.

(** A fresh interpreter. *)
Definition fresh : globals := {| warnings_filters := []; rcParams := ∅ |}.

(** The CSV is there and well formed. *)
Definition good : heap := {| csv := Some 1500; malformed := false; tuned := [] |}.
(** The CSV is missing. *)
Definition missing : heap := {| csv := None; malformed := false; tuned := [] |}.
(** The CSV has rows the cleaner cannot take. *)
Definition broken : heap := {| csv := Some 1500; malformed := true; tuned := [] |}.

(** Dataframe operations as in [pd], for a cleaning summary that has no
    ['shape'] entry. *)
Definition pd_without_shape : @pandas nat unit unit unit :=
  {| frame_len := frame_len pd;
     frame_shape := frame_shape pd;
     frame_columns := frame_columns pd;
     shape1 := shape1 pd;
     frame_col := frame_col pd;
     series_mean := series_mean pd;
     series_std := series_std pd;
     series_min := series_min pd;
     series_max := series_max pd;
     summary_item := fun _ key =>
       if String.eqb key "shape" then Raise (KeyError key) else Ok key;
     idxmax_row := idxmax_row pd;
     idxmax_at := idxmax_at pd;
     frame_iloc0 := frame_iloc0 pd;
     row_item_str := row_item_str pd;
     row_item_num := row_item_num pd;
     row_name := row_name pd;
     fmt_fixed := fmt_fixed pd;
     fmt_percent := fmt_percent pd;
     fmt_thousands := fmt_thousands pd;
     str_int := str_int pd |}.

End Demo.

(** * Properties *)

Section Properties.

Context {heap : Type}.
Context {loader cleaner analyzer engineer predictor : Type}.
Context {frame series summary pd_row importance : Type}.

Abbreviation method :=
  (@method loader cleaner analyzer engineer predictor
           frame series summary importance).

Variable lib : forall A, method A -> heap -> result A * heap.
Variable pd : @pandas frame series summary pd_row.

Abbreviation M := (@M heap).

Lemma raised_app t1 t2 : raised (t1 ++ t2) = (raised t1 ++ raised t2)%list.
Proof. unfold raised. apply omap_app. Qed.

Lemma quiet_app t1 t2 : quiet t1 -> quiet t2 -> quiet (t1 ++ t2).
Proof. unfold quiet. rewrite raised_app. intros -> ->. reflexivity. Qed.

Lemma transparent_ret {A} (a : A) : transparent (ret a : M A).
Proof. intros h. reflexivity. Qed.

Lemma transparent_print line : transparent (print line : M unit).
Proof. intros h. reflexivity. Qed.

Lemma transparent_invoke {A} (m : method A) : transparent (invoke lib m).
Proof.
  intros h. unfold invoke. destruct (lib A m h) as [[a | e] h1].
  - reflexivity.
  - exists [Call (name_of m)]. split; reflexivity.
Qed.

Lemma transparent_lift {A} (r : result A) : transparent (lift r : M A).
Proof.
  intros h. destruct r as [a | e]; simpl.
  - reflexivity.
  - exists []. split; reflexivity.
Qed.

Lemma transparent_bind {A B} (m : M A) (k : A -> M B) :
  transparent m -> (forall a, transparent (k a)) -> transparent (bind m k).
Proof.
  intros Hm Hk h. unfold bind. specialize (Hm h).
  destruct (m h) as [[[a | e] h1] t1].
  - specialize (Hk a h1). destruct (k a h1) as [[[b | e] h2] t2].
    + apply quiet_app; assumption.
    + destruct Hk as (t0 & -> & Hq). exists (t1 ++ t0)%list. split.
      * apply app_assoc.
      * apply quiet_app; assumption.
  - exact Hm.
Qed.

Lemma transparent_print_all lines :
  transparent (print_all lines : M unit).
Proof.
  induction lines as [| line rest IH]; simpl.
  - apply transparent_ret.
  - apply transparent_bind; [apply transparent_print | intros _; exact IH].
Qed.

Ltac transparency :=
  repeat first
    [ apply transparent_ret
    | apply transparent_print
    | apply transparent_invoke
    | apply transparent_lift
    | apply transparent_print_all
    | assumption
    | apply transparent_bind; [| intros ?]
    | match goal with
      | |- transparent (match ?x with _ => _ end) => destruct x
      | |- transparent (if ?b then _ else _) => destruct b
      | |- transparent (raise _) => apply transparent_lift
      end ].

Lemma transparent_main : transparent (main lib pd).
Proof. unfold main. transparency. Qed.

Lemma transparent_load_and_explore_data :
  transparent (load_and_explore_data lib).
Proof. unfold load_and_explore_data. transparency. Qed.

Lemma transparent_generate_insights df report results :
  transparent (generate_insights pd df report results : M unit).
Proof. unfold generate_insights. transparency. Qed.

Lemma transparent_interactive_analysis :
  transparent (interactive_analysis lib pd).
Proof.
  pose proof transparent_load_and_explore_data.
  pose proof transparent_generate_insights.
  unfold interactive_analysis, clean_and_preprocess, perform_eda,
    build_and_evaluate_models.
  transparency.
Qed.

(** ** Runs that return

    What a run that returns tells about its parts. *)
Lemma ret_ok {A} (a b : A) (h h' : heap) t :
  ret a h = (Ok b, h', t) -> a = b /\ h' = h /\ t = [].
Proof. unfold ret. intros [= -> -> <-]. auto. Qed.

Lemma print_ok line (u : unit) (h h' : heap) t :
  print line h = (Ok u, h', t) -> h' = h /\ t = [Print line].
Proof. unfold print. intros [= _ -> <-]. auto. Qed.

Lemma invoke_ok {A} (m : method A) a h h' t :
  invoke lib m h = (Ok a, h', t) ->
  lib A m h = (Ok a, h') /\ t = [Call (name_of m)].
Proof.
  unfold invoke. destruct (lib A m h) as [[a0 | e] h1]; intros [= -> -> <-].
  auto.
Qed.

Lemma lift_ok {A} (r : result A) a (h h' : heap) t :
  lift r h = (Ok a, h', t) -> r = Ok a /\ h' = h /\ t = [].
Proof. destruct r; simpl; intros [= -> -> <-]; auto. Qed.

Lemma bind_ok {A B} (m : M A) (k : A -> M B) b h h' t :
  bind m k h = (Ok b, h', t) ->
  exists a h1 t1 t2,
    m h = (Ok a, h1, t1) /\ k a h1 = (Ok b, h', t2) /\ t = (t1 ++ t2)%list.
Proof.
  unfold bind. destruct (m h) as [[[a | e] h1] t1]; [| discriminate].
  destruct (k a h1) as [[r h2] t2] eqn:Hk. intros [= -> -> <-].
  exists a, h1, t1, t2. auto.
Qed.

Lemma print_all_run lines (h : heap) :
  print_all lines h = (Ok tt, h, map Print lines).
Proof.
  induction lines as [| line rest IH]; simpl; [reflexivity |].
  unfold bind. simpl. rewrite IH. reflexivity.
Qed.

(** Symbolic execution of a hypothesis [m h = (Ok _, _, _)]. *)
Ltac invert_ok H :=
  lazymatch type of H with
  | bind _ _ _ = (Ok _, _, _) =>
      let H1 := fresh "Hrun" in
      let H2 := fresh "Hrun" in
      apply bind_ok in H;
      destruct H as (? & ? & ? & ? & H1 & H2 & ->);
      invert_ok H1; cbv beta in H2; invert_ok H2
  | ret _ _ = (Ok _, _, _) =>
      let E := fresh "Hret" in
      apply ret_ok in H; destruct H as (E & -> & ->);
      first [discriminate E | injection E as <- | subst]
  | print _ _ = (Ok _, _, _) =>
      apply print_ok in H; destruct H as (-> & ->)
  | invoke _ _ _ = (Ok _, _, _) =>
      let E := fresh "Hcall" in
      apply invoke_ok in H; destruct H as (E & ->)
  | lift _ _ = (Ok _, _, _) =>
      let E := fresh "Hop" in
      apply lift_ok in H; destruct H as (E & -> & ->)
  | raise _ _ = (Ok _, _, _) =>
      unfold raise in H; apply lift_ok in H; destruct H as (? & _);
      discriminate
  | print_all _ _ = (Ok _, _, _) =>
      rewrite print_all_run in H; injection H as <- <- <-
  | match ?x with _ => _ end _ = (Ok _, _, _) =>
      destruct x eqn:?; invert_ok H
  | _ => idtac
  end.

(** ** Running forward *)

Lemma bind_print line {B} (k : unit -> M B) h :
  bind (print line) k h =
  match k tt h with (r, h2, t2) => (r, h2, Print line :: t2) end.
Proof. reflexivity. Qed.

Lemma bind_invoke_ok {A B} (m : method A) (k : A -> M B) h a h1 :
  lib A m h = (Ok a, h1) ->
  bind (invoke lib m) k h =
  match k a h1 with (r, h2, t2) => (r, h2, Call (name_of m) :: t2) end.
Proof. intros E. unfold bind, invoke. rewrite E. reflexivity. Qed.

Lemma bind_returns {A B} (m : M A) (k : A -> M B) h a h1 t1 :
  m h = (Ok a, h1, t1) ->
  bind m k h = match k a h1 with (r, h2, t2) => (r, h2, (t1 ++ t2)%list) end.
Proof. intros E. unfold bind. rewrite E. reflexivity. Qed.

Lemma main_load_fails h h' :
  load_fails lib h h' -> main lib pd h = (Ok None, h', main_early_exit).
Proof.
  intros (ld & h1 & E1 & E2). unfold main.
  rewrite !bind_print, (bind_invoke_ok _ _ _ _ _ E1),
    (bind_invoke_ok _ _ _ _ _ E2), bind_print.
  reflexivity.
Qed.

Lemma interactive_load_fails h h' :
  load_fails lib h h' ->
  interactive_analysis lib pd h = (Ok None, h', interactive_early_exit).
Proof.
  intros (ld & h1 & E1 & E2).
  assert (Hload : load_and_explore_data lib h =
                  (Ok None, h', [Print "Loading and exploring data...";
                                 Call (C_DataLoader csv_path);
                                 Call C_load_data;
                                 Print "Error: Could not load data file"])).
  { unfold load_and_explore_data.
    rewrite bind_print, (bind_invoke_ok _ _ _ _ _ E1),
      (bind_invoke_ok _ _ _ _ _ E2), bind_print.
    reflexivity. }
  unfold interactive_analysis.
  rewrite !bind_print, (bind_returns _ _ _ _ _ _ Hload).
  reflexivity.
Qed.

Lemma never_none_ret_some {D} (d : D) :
  never_none (ret (Some d) : M (option D)).
Proof. intros h h' t [=]. Qed.

Lemma never_none_bind {A D} (m : M A) (k : A -> M (option D)) :
  (forall a, never_none (k a)) -> never_none (bind m k).
Proof.
  intros Hk h h' t E. unfold bind in E.
  destruct (m h) as [[[a | e] h1] t1]; [| discriminate E].
  destruct (k a h1) as [[r h2] t2] eqn:Ek. injection E as -> -> _.
  exact (Hk a h1 _ _ Ek).
Qed.

Ltac never_none_step :=
  cbv beta;
  lazymatch goal with
  | |- never_none (bind _ _) => apply never_none_bind; intros ?
  | |- never_none (ret (Some _)) => apply never_none_ret_some
  | |- never_none (match ?x with _ => _ end) => destruct x
  end.

(** A run that returned [None] did not come out of [m]. *)
Ltac not_none H :=
  lazymatch type of H with
  | ?m ?h = (Ok None, ?h', ?t) =>
      let Hn := fresh in
      assert (Hn : never_none m) by (repeat never_none_step);
      destruct (Hn h h' t H)
  end.

Lemma main_returns_none h h' t :
  main lib pd h = (Ok None, h', t) ->
  load_fails lib h h' /\ t = main_early_exit.
Proof.
  intros Hrun. unfold main in Hrun.
  do 6 (apply bind_ok in Hrun;
        destruct Hrun as (? & ? & ? & ? & ?Hstep & Hrun & ->);
        cbv beta in Hrun).
  repeat match goal with
         | H : print _ _ = _ |- _ => invert_ok H
         | H : invoke _ _ _ = _ |- _ => invert_ok H
         end.
  match type of Hrun with
  | match ?x with _ => _ end _ = _ => destruct x as [df |]
  end.
  - not_none Hrun.
  - invert_ok Hrun. split; [| reflexivity]. eexists _, _. split; eassumption.
Qed.

Lemma interactive_returns_none h h' t :
  interactive_analysis lib pd h = (Ok None, h', t) ->
  load_fails lib h h' /\ t = interactive_early_exit.
Proof.
  intros Hrun. unfold interactive_analysis in Hrun.
  do 4 (apply bind_ok in Hrun;
        destruct Hrun as (? & ? & ? & ? & ?Hstep & Hrun & ->);
        cbv beta in Hrun).
  repeat match goal with
         | H : print _ _ = _ |- _ => invert_ok H
         end.
  match goal with
  | H : load_and_explore_data _ _ = _ |- _ =>
      unfold load_and_explore_data in H; invert_ok H
  end.
  - unfold clean_and_preprocess, perform_eda, build_and_evaluate_models,
      generate_insights in Hrun.
    not_none Hrun.
  - invert_ok Hrun. split; [| reflexivity]. eexists _, _. split; eassumption.
Qed.

(** C1.  The failed load is the one failure the scripts handle.  [main] and
    [interactive_analysis] return [None] exactly when the loader returned a
    null dataframe; the run then consists of the heading, the two loader
    calls and the message, and no later stage is entered.  No exception is
    caught: a run that returns has raised none. *)
Theorem only_the_failed_load_is_handled :
  forall h h' t,
    (main lib pd h = (Ok None, h', t) <->
       load_fails lib h h' /\ t = main_early_exit) /\
    (interactive_analysis lib pd h = (Ok None, h', t) <->
       load_fails lib h h' /\ t = interactive_early_exit) /\
    stages main_early_exit = [Load] /\
    stages interactive_early_exit = [Load] /\
    (forall r, main lib pd h = (Ok r, h', t) \/
               interactive_analysis lib pd h = (Ok r, h', t) ->
               raised t = []).
Proof.
  intros h h' t. split; [| split; [| split; [| split]]].
  - split; [apply main_returns_none |].
    intros [Hf ->]. apply main_load_fails, Hf.
  - split; [apply interactive_returns_none |].
    intros [Hf ->]. apply interactive_load_fails, Hf.
  - reflexivity.
  - reflexivity.
  - intros r [Hrun | Hrun].
    + pose proof (transparent_main h) as Ht. rewrite Hrun in Ht. exact Ht.
    + pose proof (transparent_interactive_analysis h) as Ht.
      rewrite Hrun in Ht. exact Ht.
Qed.

(** ** Uncaught exceptions *)

Lemma transparent_main_script argv : transparent (main_script lib pd argv).
Proof.
  pose proof transparent_main. unfold main_script. transparency.
Qed.

Lemma transparent_interactive_script argv :
  transparent (interactive_script lib pd argv).
Proof.
  pose proof transparent_interactive_analysis.
  unfold interactive_script. transparency.
Qed.

Lemma quiet_not_raised t e : quiet t -> ~ In (Raised e) t.
Proof.
  unfold quiet, raised. intros Hq Hin.
  assert (Hmem : e ∈ omap (fun ev => match ev with
                                     | Raised e => Some e
                                     | _ => None
                                     end) t).
  { apply list_elem_of_omap. exists (Raised e). split; [| reflexivity].
    apply list_elem_of_In, Hin. }
  rewrite Hq in Hmem. inversion Hmem.
Qed.

Lemma transparent_run {A} (m : M A) h r h' t e :
  transparent m -> m h = (r, h', t) -> In (Raised e) t ->
  r = Raise e /\ exists t0, t = (t0 ++ [Raised e])%list /\ raised t0 = [].
Proof.
  intros Hm Hrun Hin. specialize (Hm h). rewrite Hrun in Hm.
  destruct r as [a | e'].
  - destruct (quiet_not_raised _ _ Hm Hin).
  - destruct Hm as (t0 & -> & Hq). apply in_app_or in Hin.
    destruct Hin as [Hin | [[= ->] | []]].
    + destruct (quiet_not_raised _ _ Hq Hin).
    + split; [reflexivity |]. exists t0. split; [reflexivity | exact Hq].
Qed.

(** C7.  Nothing intercepts a failure of a stage.  In a run of either
    pipeline function or either script, an exception raised by a collaborator
    or by a dataframe operation is the outcome of the run and its last event:
    nothing is called or printed after it, the epilogue included. *)
Theorem exceptions_propagate :
  forall argv h r h' t e,
    main lib pd h = (r, h', t) \/
    interactive_analysis lib pd h = (r, h', t) \/
    main_script lib pd argv h = (r, h', t) \/
    interactive_script lib pd argv h = (r, h', t) ->
    In (Raised e) t ->
    r = Raise e /\ exists t0, t = (t0 ++ [Raised e])%list /\ raised t0 = [].
Proof.
  intros argv h r h' t e [Hrun | [Hrun | [Hrun | Hrun]]] Hin.
  - exact (transparent_run _ _ _ _ _ _ transparent_main Hrun Hin).
  - exact (transparent_run _ _ _ _ _ _
             transparent_interactive_analysis Hrun Hin).
  - exact (transparent_run _ _ _ _ _ _
             (transparent_main_script argv) Hrun Hin).
  - exact (transparent_run _ _ _ _ _ _
             (transparent_interactive_script argv) Hrun Hin).
Qed.

(** ** The epilogues *)

Lemma main_script_returns argv h r h' t :
  main lib pd h = (Ok r, h', t) ->
  main_script lib pd argv h = (Ok r, h', (t ++ map Print main_epilogue)%list).
Proof.
  intros Hrun. unfold main_script.
  rewrite (bind_returns _ _ _ _ _ _ Hrun).
  unfold bind at 1. rewrite print_all_run. unfold ret.
  rewrite app_nil_r. reflexivity.
Qed.

Lemma interactive_script_returns argv h r h' t :
  interactive_analysis lib pd h = (Ok r, h', t) ->
  interactive_script lib pd argv h =
  (Ok r, h', (t ++ map Print interactive_epilogue)%list).
Proof.
  intros Hrun. unfold interactive_script.
  rewrite (bind_returns _ _ _ _ _ _ Hrun).
  unfold bind at 1. rewrite print_all_run. unfold ret.
  rewrite app_nil_r. reflexivity.
Qed.

Lemma main_epilogue_text : main_epilogue = main_closing_text.
Proof. reflexivity. Qed.

Lemma interactive_epilogue_text :
  interactive_epilogue = interactive_closing_text.
Proof. reflexivity. Qed.

(** C9.  After a failed load the pipeline function returns [None], and the
    [__main__] block goes on to print its closing text: the console shows
    the early exit and then, line for line, the suggestions of main.py or
    the "ANALYSIS COMPLETE!" text of jupyter_analysis.py, which are the lines
    that follow any run that returns. *)
Theorem epilogue_after_failed_load :
  forall argv h h',
    load_fails lib h h' ->
    (main lib pd h = (Ok None, h', main_early_exit) /\
     main_script lib pd argv h =
       (Ok None, h', (main_early_exit ++ map Print main_closing_text)%list) /\
     interactive_analysis lib pd h = (Ok None, h', interactive_early_exit) /\
     interactive_script lib pd argv h =
       (Ok None, h',
        (interactive_early_exit ++ map Print interactive_closing_text)%list)) /\
    In "ADDITIONAL ANALYSIS SUGGESTIONS"
       (printed (main_script lib pd argv h).2) /\
    In "ANALYSIS COMPLETE!"
       (printed (interactive_script lib pd argv h).2) /\
    (forall h0 r h1 t,
       (main lib pd h0 = (Ok r, h1, t) ->
        main_script lib pd argv h0 =
          (Ok r, h1, (t ++ map Print main_closing_text)%list)) /\
       (interactive_analysis lib pd h0 = (Ok r, h1, t) ->
        interactive_script lib pd argv h0 =
          (Ok r, h1, (t ++ map Print interactive_closing_text)%list))).
Proof.
  intros argv h h' Hf.
  pose proof (main_load_fails _ _ Hf) as Hm.
  pose proof (interactive_load_fails _ _ Hf) as Hi.
  pose proof (main_script_returns argv _ _ _ _ Hm) as Hms.
  pose proof (interactive_script_returns argv _ _ _ _ Hi) as His.
  rewrite main_epilogue_text in Hms.
  rewrite interactive_epilogue_text in His.
  split; [split; [| split; [| split]] | split; [| split]].
  - exact Hm.
  - exact Hms.
  - exact Hi.
  - exact His.
  - rewrite Hms. vm_compute. do 6 right. left. reflexivity.
  - rewrite His. vm_compute. do 6 right. left. reflexivity.
  - intros h0 r h1 t. split; intros Hrun.
    + rewrite <- main_epilogue_text. apply main_script_returns, Hrun.
    + rewrite <- interactive_epilogue_text.
      apply interactive_script_returns, Hrun.
Qed.

(** ** What every run does *)

Lemma bind_assoc {A B C} (m : M A) (k1 : A -> M B) (k2 : B -> M C) h :
  bind (bind m k1) k2 h = bind m (fun a => bind (k1 a) k2) h.
Proof.
  unfold bind. destruct (m h) as [[[a | e] h1] t1]; [| reflexivity].
  destruct (k1 a h1) as [[[b | e] h2] t2]; [| reflexivity].
  destruct (k2 b h2) as [[r h3] t3]. rewrite app_assoc. reflexivity.
Qed.

Section Following.

Context {X D : Type}.
Variable f : event -> option X.
Hypothesis f_raised : forall e, f (Raised e) = None.

Lemma follows_ret_none xs : follows f (ret None : M (option D)) xs.
Proof. intros h. split; [apply prefix_nil | intros d [=]]. Qed.

Lemma follows_ret_some (d : D) : follows f (ret (Some d) : M (option D)) [].
Proof. intros h. split; [apply prefix_nil | reflexivity]. Qed.

(** A first part that shows nothing to [f]. *)
Lemma follows_bind_silent {A} (m : M A) (k : A -> M (option D)) xs :
  (forall h, omap f (m h).2 = []) ->
  (forall a, follows f (k a) xs) -> follows f (bind m k) xs.
Proof.
  intros Hm Hk h. unfold bind. specialize (Hm h).
  destruct (m h) as [[[a | e] h1] t1]; simpl in *.
  - specialize (Hk a h1). destruct (k a h1) as [[r h2] t2]; simpl in *.
    rewrite omap_app, Hm. exact Hk.
  - rewrite Hm. split; [apply prefix_nil | intros d [=]].
Qed.

(** A first part that shows [x] to [f], whether it returns or raises. *)
Lemma follows_bind_emit {A} (m : M A) (k : A -> M (option D)) x xs :
  (forall h, omap f (m h).2 = [x]) ->
  (forall a, follows f (k a) xs) -> follows f (bind m k) (x :: xs).
Proof.
  intros Hm Hk h. unfold bind. specialize (Hm h).
  destruct (m h) as [[[a | e] h1] t1]; simpl in *.
  - specialize (Hk a h1). destruct (k a h1) as [[r h2] t2]; simpl in *.
    rewrite omap_app, Hm. simpl. destruct Hk as [Hpre Hall]. split.
    + apply prefix_cons, Hpre.
    + intros d Hd. rewrite (Hall d Hd). reflexivity.
  - rewrite Hm. split; [apply prefix_cons, prefix_nil | intros d [=]].
Qed.

Lemma follows_bind_print_skip line (k : unit -> M (option D)) xs :
  f (Print line) = None ->
  follows f (k tt) xs -> follows f (bind (print line) k) xs.
Proof.
  intros Hf Hk. apply follows_bind_silent.
  - intros h. simpl. rewrite Hf. reflexivity.
  - intros []. exact Hk.
Qed.

Lemma follows_bind_print_emit line (k : unit -> M (option D)) x xs :
  f (Print line) = Some x ->
  follows f (k tt) xs -> follows f (bind (print line) k) (x :: xs).
Proof.
  intros Hf Hk. apply follows_bind_emit.
  - intros h. simpl. rewrite Hf. reflexivity.
  - intros []. exact Hk.
Qed.

Lemma follows_bind_print_all lines (k : unit -> M (option D)) xs :
  omap f (map Print lines) = [] ->
  follows f (k tt) xs -> follows f (bind (print_all lines) k) xs.
Proof.
  intros Hf Hk. apply follows_bind_silent.
  - intros h. rewrite print_all_run. exact Hf.
  - intros []. exact Hk.
Qed.

Lemma follows_bind_ret {A} (a : A) (k : A -> M (option D)) xs :
  follows f (k a) xs -> follows f (bind (ret a) k) xs.
Proof.
  intros Hk h. specialize (Hk h). unfold bind, ret.
  destruct (k a h) as [[r h2] t2]. exact Hk.
Qed.

Lemma follows_bind_lift {A} (r : result A) (k : A -> M (option D)) xs :
  (forall a, follows f (k a) xs) -> follows f (bind (lift r) k) xs.
Proof.
  intros Hk. apply follows_bind_silent; [| exact Hk].
  intros h. destruct r as [a | e]; simpl; [reflexivity |].
  rewrite f_raised. reflexivity.
Qed.

Lemma follows_bind_invoke {A} (m : method A) (k : A -> M (option D)) x xs :
  f (Call (name_of m)) = Some x ->
  (forall a, follows f (k a) xs) ->
  follows f (bind (invoke lib m) k) (x :: xs).
Proof.
  intros Hf Hk. apply follows_bind_emit; [| exact Hk].
  intros h. unfold invoke. destruct (lib A m h) as [[a | e] h1]; simpl.
  - rewrite Hf. reflexivity.
  - rewrite Hf, f_raised. reflexivity.
Qed.

Lemma follows_bind_assoc {A B} (m : M A) (k1 : A -> M B)
    (k2 : B -> M (option D)) xs :
  follows f (bind m (fun a => bind (k1 a) k2)) xs ->
  follows f (bind (bind m k1) k2) xs.
Proof. intros H h. rewrite bind_assoc. apply H. Qed.

End Following.

Ltac follow_step :=
  cbv beta;
  lazymatch goal with
  | |- follows _ (ret None) _ => apply follows_ret_none
  | |- follows _ (ret (Some _)) _ => apply follows_ret_some
  | |- follows _ (bind (print _) _) _ =>
      first [ apply follows_bind_print_skip; [reflexivity |]
            | apply follows_bind_print_emit; [reflexivity |] ]
  | |- follows _ (bind (print_all _) _) _ =>
      apply follows_bind_print_all; [reflexivity |]
  | |- follows _ (bind (ret _) _) _ => apply follows_bind_ret
  | |- follows _ (bind (lift _) _) _ =>
      apply follows_bind_lift; [reflexivity | intros ?]
  | |- follows _ (bind (raise _) _) _ =>
      apply follows_bind_lift; [reflexivity | intros ?]
  | |- follows _ (bind (invoke _ _) _) _ =>
      apply follows_bind_invoke; [reflexivity | reflexivity | intros ?]
  | |- follows _ (bind (bind _ _) _) _ => apply follows_bind_assoc
  | |- follows _ (bind (match ?x with _ => _ end) _) _ => destruct x
  | |- follows _ (match ?x with _ => _ end) _ => destruct x
  end.

Ltac follow := repeat follow_step.

Ltac unfold_all :=
  unfold main_script, interactive_script, main, interactive_analysis,
    load_and_explore_data, clean_and_preprocess, perform_eda,
    build_and_evaluate_models, generate_insights.

Lemma main_calls_follow : follows call_of (main lib pd) main_calls.
Proof. unfold_all. unfold main_calls. follow. Qed.

Lemma interactive_calls_follow :
  follows call_of (interactive_analysis lib pd) interactive_calls.
Proof. unfold_all. unfold interactive_calls. follow. Qed.

Lemma main_script_calls_follow argv :
  follows call_of (main_script lib pd argv) main_calls.
Proof. unfold_all. unfold main_calls. follow. Qed.

Lemma interactive_script_calls_follow argv :
  follows call_of (interactive_script lib pd argv) interactive_calls.
Proof. unfold_all. unfold interactive_calls. follow. Qed.

Lemma main_script_stages_follow argv :
  follows stage_of (main_script lib pd argv) main_stages.
Proof. unfold_all. unfold main_stages, main_calls. simpl. follow. Qed.

Lemma interactive_script_stages_follow argv :
  follows stage_of (interactive_script lib pd argv) interactive_stages.
Proof.
  unfold_all. unfold interactive_stages, interactive_calls. simpl. follow.
Qed.

(** A run that returned a dictionary, taken apart. *)
Lemma completed_run {V} (run : result (option (gmap string V)) * heap
                               * list event) :
  completed run.1.1 = true ->
  run = (Ok (Some (dict_of run.1.1)), run.1.2, run.2).
Proof.
  destruct run as [[[[d |] | e] h] t]; simpl; intros [=]. reflexivity.
Qed.

(** What [follows] says of one run. *)
Lemma follows_run {X D} (f : event -> option X) (m : M (option D)) xs
    h r h' t :
  follows f m xs -> m h = (r, h', t) ->
  omap f t `prefix_of` xs /\ forall d, r = Ok (Some d) -> omap f t = xs.
Proof. intros Hm Hrun. specialize (Hm h). rewrite Hrun in Hm. exact Hm. Qed.

(** ** Runs that complete *)

Ltac unfold_scripts H :=
  unfold main_script, interactive_script, main, interactive_analysis,
    load_and_explore_data, clean_and_preprocess, perform_eda,
    build_and_evaluate_models, generate_insights in H.

Ltac forget_units :=
  repeat match goal with u : unit |- _ => destruct u end.

Lemma main_completes_calls h d h' t :
  main lib pd h = (Ok (Some d), h', t) -> calls t = main_calls.
Proof.
  intros Hrun.
  exact (proj2 (follows_run _ _ _ _ _ _ _ main_calls_follow Hrun) d eq_refl).
Qed.

Lemma interactive_completes_calls h d h' t :
  interactive_analysis lib pd h = (Ok (Some d), h', t) ->
  calls t = interactive_calls.
Proof.
  intros Hrun.
  exact (proj2 (follows_run _ _ _ _ _ _ _ interactive_calls_follow Hrun)
           d eq_refl).
Qed.

(** C4.  A run of either script that completes goes through the stages in
    the order load, clean, explore, engineer features, train and evaluate,
    report: each stage once, none skipped, none before an earlier one. *)
Theorem stages_in_pipeline_order :
  forall argv h d h' t,
    main_script lib pd argv h = (Ok (Some d), h', t) \/
    interactive_script lib pd argv h = (Ok (Some d), h', t) ->
    stages t = pipeline_order.
Proof.
  intros argv h d h' t [Hrun | Hrun]; unfold stages.
  - rewrite (proj2 (follows_run _ _ _ _ _ _ _
                      (main_script_stages_follow argv) Hrun) d eq_refl).
    reflexivity.
  - rewrite (proj2 (follows_run _ _ _ _ _ _ _
                      (interactive_script_stages_follow argv) Hrun)
               d eq_refl).
    reflexivity.
Qed.

(** C3.  In a run of [main] that completes, the two tuning calls (Random
    Forest, then Gradient Boosting) and a second evaluation are the last
    calls made, and the report's best-model lines are formatted from the
    first row of that second evaluation. *)
Theorem report_uses_tuned_evaluation :
  forall h d h' t,
    main lib pd h = (Ok (Some d), h', t) ->
    exists p h1 h2 h3 final_results best,
      lib _ (hyperparameter_tuning p "Random Forest") h1 = (Ok tt, h2) /\
      lib _ (hyperparameter_tuning p "Gradient Boosting") h2 = (Ok tt, h3) /\
      lib _ (evaluate_models p) h3 = (Ok final_results, h') /\
      calls t = main_calls /\
      iloc0 final_results = Ok best /\
      List.filter best_model_line (printed t) =
        ["- Model: " ++ Model best;
         "- Test R²: " ++ fmt_fixed pd 4 (Test_R2 best);
         "- Test RMSE: " ++ fmt_fixed pd 4 (Test_RMSE best);
         "- Test MAE: " ++ fmt_fixed pd 4 (Test_MAE best);
         "- Model can predict movie ratings with "
           ++ fmt_percent pd 1 (Test_R2 best) ++ " accuracy";
         "- Average prediction error: ±"
           ++ fmt_fixed pd 2 (Test_RMSE best) ++ " rating points"].
Proof.
  intros h d h' t Hrun. unfold_scripts Hrun. invert_ok Hrun.
  all: forget_units.
  all: do 6 eexists.
  all: split; [eassumption |].
  all: split; [eassumption |].
  all: split; [eassumption |].
  all: split; [reflexivity |].
  all: split; [eassumption |].
  all: vm_compute; reflexivity.
Qed.

(** C10.  A run of [main] that completes returns a dictionary with exactly
    the six keys; ['model_results'] holds the table of the evaluation made
    after the two tuning calls; and the report has a best-year line exactly
    when the EDA report has a ['yearly_ratings'] entry that is not [None]. *)
Theorem main_result_dictionary :
  forall h d h' t,
    main lib pd h = (Ok (Some d), h', t) ->
    dom d = list_to_set ["cleaned_data"; "features"; "target";
                         "model_results"; "eda_report"; "predictor"] /\
    (exists p h1 h2 h3 final_results,
       lib _ (hyperparameter_tuning p "Random Forest") h1 = (Ok tt, h2) /\
       lib _ (hyperparameter_tuning p "Gradient Boosting") h2 = (Ok tt, h3) /\
       lib _ (evaluate_models p) h3 = (Ok final_results, h') /\
       d !! "model_results" = Some (VResults final_results) /\
       d !! "predictor" = Some (VPredictor p)) /\
    (exists eda_report,
       d !! "eda_report" = Some (VReport eda_report) /\
       (List.filter best_year_line (printed t) <> [] <->
        exists yearly, eda_report !! "yearly_ratings" = Some (Some yearly))).
Proof.
  intros h d h' t Hrun. unfold_scripts Hrun. invert_ok Hrun.
  all: forget_units.
  all: split; [rewrite !dom_insert_L, dom_empty_L; reflexivity |].
  all: split;
    [do 5 eexists; repeat (split; [eassumption |]); split; reflexivity |].
  all: eexists; split; [reflexivity |].
  all: match goal with E : _ !! "yearly_ratings" = _ |- _ => rewrite E end.
  all: split.
  all: first
    [ solve [intros _; eexists; reflexivity]
    | solve [intros _; vm_compute; intros [=]]
    | solve [intros Hne; exfalso; apply Hne; vm_compute; reflexivity]
    | solve [intros [yearly [=]]] ].
Qed.

(** ** Inputs and outputs *)























(** ** The two scripts side by side *)

Lemma main_completes h d h' t :
  main lib pd h = (Ok (Some d), h', t) -> main_path lib h h' d.
Proof.
  intros Hrun. unfold_scripts Hrun. invert_ok Hrun.
  all: forget_units.
  all: unfold main_path, returns.
  all: do 35 eexists.
  all: repeat (split; [eassumption |]).
  all: reflexivity.
Qed.

Lemma interactive_completes h d h' t :
  interactive_analysis lib pd h = (Ok (Some d), h', t) ->
  interactive_path lib h h' d.
Proof.
  intros Hrun. unfold_scripts Hrun. invert_ok Hrun.
  all: forget_units.
  all: unfold interactive_path, returns.
  all: do 28 eexists.
  all: repeat (split; [eassumption |]).
  all: reflexivity.
Qed.

Lemma read_only_call {A} (m : method A) h a h1 :
  (lib A m h).2 = h -> lib A m h = (Ok a, h1) -> h1 = h.
Proof. intros Hro E. rewrite E in Hro. exact Hro. Qed.

(** Two returns of the same call from the same state agree. *)
Ltac same_call :=
  match goal with
  | E1 : lib ?A ?m ?h = (Ok _, _), E2 : lib ?A ?m ?h = (Ok _, _) |- _ =>
      rewrite E1 in E2; injection E2; intros; subst; clear E2
  end.

(** C8, as the code has it.  When both pipeline functions complete from the
    same state, [interactive_analysis] makes its sixteen calls and [main]
    the same calls in the same order with five more: [get_basic_stats],
    [get_cleaned_summary], the two tuning calls and a second evaluation
    (and it names the target column).  If the two reporting calls leave the
    state alone and the default target column is ['rating'], both work on
    the same cleaned data, EDA report and predictor, and [main] ends where
    [interactive_analysis] ends followed by the two tuning calls and the
    evaluation whose table it returns; [interactive_analysis] returns the
    table of the evaluation made before any tuning. *)
Theorem main_extends_interactive_analysis :
  forall h dm hm tm dj hj tj,
    main lib pd h = (Ok (Some dm), hm, tm) ->
    interactive_analysis lib pd h = (Ok (Some dj), hj, tj) ->
    calls tj = interactive_calls /\
    calls tm = main_calls /\
    map forget_target interactive_calls
      `sublist_of` map forget_target main_calls /\
    (reporting_is_read_only lib -> default_target_is_rating lib ->
     exists p results_df final_results h0 h1,
       returns lib (evaluate_models p) h0 results_df h1 /\
       dj !! "model_results" = Some (VResults results_df) /\
       dj !! "predictor" = Some (VPredictor p) /\
       dm !! "predictor" = Some (VPredictor p) /\
       dm !! "cleaned_data" = dj !! "data" /\
       dm !! "eda_report" = dj !! "eda_report" /\
       (exists h3 h4,
          returns lib (hyperparameter_tuning p "Random Forest") hj tt h3 /\
          returns lib (hyperparameter_tuning p "Gradient Boosting") h3 tt h4 /\
          returns lib (evaluate_models p) h4 final_results hm) /\
       dm !! "model_results" = Some (VResults final_results)).
Proof.
  intros h dm hm tm dj hj tj Hm Hj.
  split; [exact (interactive_completes_calls _ _ _ _ Hj) |].
  split; [exact (main_completes_calls _ _ _ _ Hm) |].
  split.
  { simpl.
    repeat first
      [ apply sublist_nil | apply sublist_skip | apply sublist_cons ]. }
  intros [Hro1 Hro2] Hdef.
  apply main_completes in Hm. apply interactive_completes in Hj.
  unfold main_path, interactive_path, returns in *.
  destruct Hm as
    (ld & df & cl & dfc & sm & eda & rep & fe & dff & X & y & p & res & imp
        & fin & m1 & m2 & m3 & m4 & m5 & m6 & m7 & m8 & m9 & m10 & m11 & m12
        & m13 & m14 & m15 & m16 & m17 & m18 & m19 & m20
        & M1 & M2 & M3 & M4 & M5 & M6 & M7 & M8 & M9 & M10 & M11 & M12 & M13
        & M14 & M15 & M16 & M17 & M18 & M19 & M20 & M21 & ->).
  destruct Hj as
    (ld' & df' & cl' & dfc' & eda' & rep' & fe' & dff' & X' & y' & p'
         & res' & imp' & j1 & j2 & j3 & j4 & j5 & j6 & j7 & j8 & j9 & j10
         & j11 & j12 & j13 & j14 & j15
         & J1 & J2 & J3 & J4 & J5 & J6 & J7 & J8 & J9 & J10 & J11 & J12 & J13
         & J14 & J15 & J16 & ->).
  apply (read_only_call _ _ _ _ (Hro1 _ _)) in M4. subst m4.
  apply (read_only_call _ _ _ _ (Hro2 _ _)) in M7. subst m7.
  rewrite Hdef in J10.
  repeat same_call.
  do 5 eexists. repeat split.
  all: try reflexivity.
  - eassumption.
  - do 2 eexists. repeat split; eassumption.
Qed.

(** * Further properties of the scripts *)

(** ** Every run, whatever its outcome *)

Lemma squash_nil l : squash l = [] -> l = [].
Proof.
  destruct l as [| a l]; [reflexivity |]. simpl.
  destruct (squash l) as [| b tl]; [discriminate |].
  destruct (decide (a = b)); discriminate.
Qed.

Lemma squash_app_prefix l1 l2 : squash l1 `prefix_of` squash (l1 ++ l2).
Proof.
  induction l1 as [| a l1 IH]; [apply prefix_nil |].
  simpl. destruct IH as [k Hk]. rewrite Hk.
  destruct (squash l1) as [| b tl] eqn:E.
  - apply squash_nil in E. subst l1. simpl.
    destruct k as [| b tl]; [reflexivity |].
    destruct (decide (a = b)) as [<- |]; apply prefix_cons, prefix_nil.
  - simpl. destruct (decide (a = b)); exists k; reflexivity.
Qed.

Lemma squash_prefix l1 l2 :
  l1 `prefix_of` l2 -> squash l1 `prefix_of` squash l2.
Proof. intros [k ->]. apply squash_app_prefix. Qed.

(** X1.  In every run of either script, whether it completes, takes the early
    exit or raises, the stages entered are an initial segment of load,
    clean, explore, engineer features, train, report. *)
Theorem stages_of_every_run :
  forall argv h r h' t,
    main_script lib pd argv h = (r, h', t) \/
    interactive_script lib pd argv h = (r, h', t) ->
    stages t `prefix_of` pipeline_order.
Proof.
  intros argv h r h' t [Hrun | Hrun]; unfold stages.
  - apply (squash_prefix _ main_stages).
    exact (proj1 (follows_run _ _ _ _ _ _ _
                    (main_script_stages_follow argv) Hrun)).
  - apply (squash_prefix _ interactive_stages).
    exact (proj1 (follows_run _ _ _ _ _ _ _
                    (interactive_script_stages_follow argv) Hrun)).
Qed.

Lemma prefix_In {A} (l1 l2 : list A) x :
  l1 `prefix_of` l2 -> In x l1 -> In x l2.
Proof. intros [k ->] Hin. apply in_or_app. left. exact Hin. Qed.

(** X2.  The collaborator calls of every run of main.py are an initial
    segment of its twenty-one calls, and those of every run of
    jupyter_analysis.py an initial segment of its sixteen: no call is made
    out of order or twice over, and jupyter_analysis.py never calls
    [get_basic_stats], [get_cleaned_summary] or [hyperparameter_tuning]. *)
Theorem calls_of_every_run :
  forall argv h r h' t,
    (main_script lib pd argv h = (r, h', t) ->
     calls t `prefix_of` main_calls) /\
    (interactive_script lib pd argv h = (r, h', t) ->
     calls t `prefix_of` interactive_calls /\
     forall c, In c (calls t) ->
               c <> C_get_basic_stats /\ c <> C_get_cleaned_summary /\
               forall model_name, c <> C_hyperparameter_tuning model_name).
Proof.
  intros argv h r h' t. split; intros Hrun.
  - exact (proj1 (follows_run _ _ _ _ _ _ _
                    (main_script_calls_follow argv) Hrun)).
  - pose proof (proj1 (follows_run _ _ _ _ _ _ _
                         (interactive_script_calls_follow argv) Hrun))
      as Hpre.
    split; [exact Hpre |]. intros c Hin.
    apply (prefix_In _ _ _ Hpre) in Hin. unfold interactive_calls in Hin.
    simpl in Hin.
    repeat destruct Hin as [<- | Hin];
      try (split; [discriminate | split; [discriminate | discriminate]]).
    destruct Hin.
Qed.

Lemma calls_app t1 t2 : calls (t1 ++ t2) = (calls t1 ++ calls t2)%list.
Proof. unfold calls. apply omap_app. Qed.

(** Wherever a tuning call stands among main's calls, both plotting calls
    stand before it and none after it. *)
Lemma plots_around_tuning before model_name after :
  main_calls = (before ++ C_hyperparameter_tuning model_name :: after)%list ->
  List.filter is_plot before =
    [C_plot_model_comparison; C_plot_predictions] /\
  List.filter is_plot after = [].
Proof.
  unfold main_calls. intros H.
  repeat (destruct before as [| c before];
          [ simpl in H;
            first [ discriminate H
                  | injection H as _ <-; split; reflexivity ]
          | simpl in H; injection H as <- H ]).
  destruct before; discriminate H.
Qed.

(** X3.  In every run of main.py, once hyperparameter tuning has begun no
    figure is drawn any more: both plotting calls were made before the tuning
    call, so the figures show the models as they were before tuning. *)
Theorem figures_precede_tuning :
  forall argv h r h' t t1 model_name t2,
    main_script lib pd argv h = (r, h', t) ->
    t = (t1 ++ Call (C_hyperparameter_tuning model_name) :: t2)%list ->
    figures t1 = [C_plot_model_comparison; C_plot_predictions] /\
    figures t2 = [].
Proof.
  intros argv h r h' t t1 model_name t2 Hrun ->.
  pose proof (proj1 (follows_run _ _ _ _ _ _ _
                       (main_script_calls_follow argv) Hrun)) as [k Hk].
  rewrite calls_app in Hk. simpl in Hk. rewrite <- app_assoc in Hk.
  simpl in Hk. apply plots_around_tuning in Hk. destruct Hk as [Hb Ha].
  split; [exact Hb |]. unfold figures.
  rewrite List.filter_app in Ha. apply app_eq_nil in Ha. apply Ha.
Qed.

(** ** The dictionary of jupyter_analysis.py *)

(** X4.  A run of [interactive_analysis] that completes returns a dictionary
    with exactly the keys ['data'], ['eda_report'], ['model_results'],
    ['predictor'] and ['feature_importance'].  ['data'] is the frame
    [clean_data] returned, ['model_results'] the table of the one
    [evaluate_models] call, ['feature_importance'] what
    [get_feature_importance] returned, and the run ends in the state that
    call left. *)
Theorem interactive_result_dictionary :
  forall h d h' t,
    interactive_analysis lib pd h = (Ok (Some d), h', t) ->
    dom d = list_to_set ["data"; "eda_report"; "model_results";
                         "predictor"; "feature_importance"] /\
    exists cl df_clean p results imp h1 h2 h3 h4 h5,
      returns lib (clean_data cl) h1 df_clean h2 /\
      d !! "data" = Some (VFrame df_clean) /\
      returns lib (evaluate_models p) h3 results h4 /\
      d !! "model_results" = Some (VResults results) /\
      returns lib (get_feature_importance p) h5 imp h' /\
      d !! "feature_importance" = Some (VImportance imp) /\
      d !! "predictor" = Some (VPredictor p).
Proof.
  intros h d h' t Hrun. apply interactive_completes in Hrun.
  destruct Hrun as
    (ld & df & cl & dfc & an & rep & en & dff & X & y & p & res & imp
        & j1 & j2 & j3 & j4 & j5 & j6 & j7 & j8 & j9 & j10 & j11 & j12
        & j13 & j14 & j15
        & J1 & J2 & J3 & J4 & J5 & J6 & J7 & J8 & J9 & J10 & J11 & J12 & J13
        & J14 & J15 & J16 & ->).
  split; [rewrite dom_list_to_map_L; reflexivity |].
  exists cl, dfc, p, res, imp, j4, j5, j12, j13, j15.
  repeat split; try assumption; reflexivity.
Qed.

Lemma main_dictionary_keys h d h' t :
  main lib pd h = (Ok (Some d), h', t) ->
  dom d = list_to_set ["cleaned_data"; "features"; "target";
                       "model_results"; "eda_report"; "predictor"].
Proof.
  intros Hrun. apply main_completes in Hrun. unfold main_path in Hrun.
  repeat lazymatch type of Hrun with
         | ex _ => destruct Hrun as [? Hrun]
         | _ /\ _ => destruct Hrun as [_ Hrun]
         end.
  subst d.
  rewrite dom_list_to_map_L. reflexivity.
Qed.

Lemma interactive_dictionary_keys h d h' t :
  interactive_analysis lib pd h = (Ok (Some d), h', t) ->
  dom d = list_to_set ["data"; "eda_report"; "model_results";
                       "predictor"; "feature_importance"].
Proof.
  intros Hrun. apply interactive_completes in Hrun.
  unfold interactive_path in Hrun.
  repeat lazymatch type of Hrun with
         | ex _ => destruct Hrun as [? Hrun]
         | _ /\ _ => destruct Hrun as [_ Hrun]
         end.
  subst d.
  rewrite dom_list_to_map_L. reflexivity.
Qed.

(** X10.  The dictionaries of the two pipeline functions have exactly three
    keys in common, ['eda_report'], ['model_results'] and ['predictor'].  The
    cleaned frame is under ['cleaned_data'] in one and under ['data'] in the
    other; only [main] returns the features and the target, and only
    [interactive_analysis] returns the feature importance, which [main]
    computes and drops. *)
Theorem result_dictionaries_share_three_keys :
  forall h dm hm tm h0 dj hj tj,
    main lib pd h = (Ok (Some dm), hm, tm) ->
    interactive_analysis lib pd h0 = (Ok (Some dj), hj, tj) ->
    dom dm ∩ dom dj =
      list_to_set ["eda_report"; "model_results"; "predictor"] /\
    dom dm ∖ dom dj = list_to_set ["cleaned_data"; "features"; "target"] /\
    dom dj ∖ dom dm = list_to_set ["data"; "feature_importance"].
Proof.
  intros h dm hm tm h0 dj hj tj Hm Hj.
  rewrite (main_dictionary_keys _ _ _ _ Hm).
  rewrite (interactive_dictionary_keys _ _ _ _ Hj).
  simpl.
  repeat split; apply set_eq; intros k;
    rewrite ?elem_of_intersection, ?elem_of_difference,
      ?elem_of_union, ?elem_of_singleton, ?elem_of_empty;
    split; intros Hk;
    repeat match goal with
           | H : _ /\ _ |- _ => destruct H
           | H : _ \/ _ |- _ => destruct H
           | H : ~ _ |- _ => try (exfalso; apply H; clear H; subst; tauto)
           end;
    subst; intuition congruence.
Qed.

(** ** generate_insights *)

Lemma read_only_ret {A} (a : A) : read_only (ret a : M A).
Proof. intros h. split; reflexivity. Qed.

Lemma read_only_print line : read_only (print line : M unit).
Proof. intros h. split; reflexivity. Qed.

Lemma read_only_lift {A} (r : result A) : read_only (lift r : M A).
Proof. intros h. destruct r; split; reflexivity. Qed.

Lemma read_only_bind {A B} (m : M A) (k : A -> M B) :
  read_only m -> (forall a, read_only (k a)) -> read_only (bind m k).
Proof.
  intros Hm Hk h. unfold bind. specialize (Hm h).
  destruct (m h) as [[[a | e] h1] t1]; simpl in *; [| exact Hm].
  destruct Hm as [-> Hc]. specialize (Hk a h).
  destruct (k a h) as [[r h2] t2]; simpl in *.
  destruct Hk as [-> Hc2]. split; [reflexivity |].
  unfold calls in *. rewrite omap_app, Hc, Hc2. reflexivity.
Qed.

Ltac read_only_step :=
  cbv beta;
  lazymatch goal with
  | |- read_only (bind _ _) => apply read_only_bind; [| intros ?]
  | |- read_only (ret _) => apply read_only_ret
  | |- read_only (print _) => apply read_only_print
  | |- read_only (lift _) => apply read_only_lift
  | |- read_only (raise _) => apply read_only_lift
  | |- read_only (match ?x with _ => _ end) => destruct x
  end.

Lemma generate_insights_read_only df eda_report model_results :
  read_only (generate_insights pd df eda_report model_results : M unit).
Proof. unfold generate_insights. repeat read_only_step. Qed.

(** X7.  [generate_insights] only reports: whatever its outcome, it calls no
    collaborator and leaves the program state as it found it. *)
Theorem generate_insights_only_reports :
  forall df eda_report model_results (h : heap) r h' t,
    generate_insights pd df eda_report model_results h = (r, h', t) ->
    h' = h /\ calls t = [].
Proof.
  intros df eda_report model_results h r h' t Hrun.
  pose proof (generate_insights_read_only df eda_report model_results h)
    as H.
  rewrite Hrun in H. exact H.
Qed.

Lemma never_returns_raise {A} e : never_returns (lift (Raise e) : M A).
Proof. intros h a h' t [=]. Qed.

Lemma never_returns_bind_l {A B} (m : M A) (k : A -> M B) :
  never_returns m -> never_returns (bind m k).
Proof.
  intros Hm h b h' t E. unfold bind in E.
  destruct (m h) as [[[a | e] h1] t1] eqn:Em; [| discriminate E].
  exact (Hm h a h1 t1 Em).
Qed.

Lemma never_returns_bind_r {A B} (m : M A) (k : A -> M B) :
  (forall a, never_returns (k a)) -> never_returns (bind m k).
Proof.
  intros Hk h b h' t E. unfold bind in E.
  destruct (m h) as [[[a | e] h1] t1]; [| discriminate E].
  destruct (k a h1) as [[r h2] t2] eqn:Ek. injection E as -> -> _.
  exact (Hk a h1 _ _ _ Ek).
Qed.

Lemma generate_insights_empty_table df eda_report :
  never_returns (generate_insights pd df eda_report [] : M unit).
Proof.
  unfold generate_insights.
  repeat (cbv beta;
          lazymatch goal with
          | |- never_returns (bind (lift (iloc0 [])) _) =>
              apply never_returns_bind_l, never_returns_raise
          | |- never_returns (bind _ _) =>
              apply never_returns_bind_r; intros ?
          end).
Qed.


Lemma bind_lift_ok {A B} (a : A) (k : A -> M B) h :
  bind (lift (Ok a)) k h = k a h.
Proof. unfold bind, lift. destruct (k a h) as [[r h2] t2]. reflexivity. Qed.

Lemma bind_lift_raise {A B} e (k : A -> M B) h :
  bind (lift (Raise e)) k h = (Raise e, h, [Raised e]).
Proof. reflexivity. Qed.



Lemma In_existsb (s : string) l :
  In s l <-> existsb (String.eqb s) l = true.
Proof.
  rewrite existsb_exists. split.
  - intros Hin. exists s. split; [exact Hin | apply String.eqb_refl].
  - intros (x & Hin & Heq). apply String.eqb_eq in Heq. subst x. exact Hin.
Qed.

(** X8.  When [generate_insights] returns, its output has the temporal section
    exactly when the EDA report has a ['yearly_ratings'] entry that is not
    [None], and the genre section exactly when it has a ['genre_analysis']
    frame of positive length: an empty genre frame is passed over. *)
Theorem generate_insights_sections :
  forall df eda_report model_results (h : heap) u h' t,
    generate_insights pd df eda_report model_results h = (Ok u, h', t) ->
    (In temporal_heading (printed t) <->
     exists yearly, eda_report !! "yearly_ratings" = Some (Some yearly)) /\
    (In genre_heading (printed t) <->
     exists genres,
       eda_report !! "genre_analysis" = Some (Some genres) /\
       (0 < frame_len pd genres)%Z).
Proof.
  intros df eda_report model_results h u h' t Hrun.
  unfold generate_insights in Hrun. invert_ok Hrun.
  all: repeat match goal with
              | E : _ !! _ = _ |- _ => rewrite E; clear E
              end.
  all: split; split.
  all: try solve [intros _; apply In_existsb; vm_compute; reflexivity].
  all: try solve [intros H; apply In_existsb in H; vm_compute in H;
                  discriminate H].
  all: try solve [intros (? & [=])].
  all: try solve [intros (? & [=] & _)].
  all: try solve [intros _; eexists; reflexivity].
  all: try solve [intros _; eexists; split;
                  [reflexivity | apply Z.ltb_lt; assumption]].
  all: try solve [intros (? & [= <-] & Hlt); apply Z.ltb_lt in Hlt;
                  congruence].
Qed.

(** ** The model table *)

Lemma main_completes_table h d h' t :
  main lib pd h = (Ok (Some d), h', t) ->
  exists final_results best,
    d !! "model_results" = Some (VResults final_results) /\
    iloc0 final_results = Ok best.
Proof.
  intros Hrun. unfold_scripts Hrun. invert_ok Hrun.
  all: do 2 eexists; split; [reflexivity | eassumption].
Qed.

Lemma interactive_completes_table h d h' t :
  interactive_analysis lib pd h = (Ok (Some d), h', t) ->
  exists df eda_report model_results (h1 : heap) h2 t1,
    d !! "model_results" = Some (VResults model_results) /\
    generate_insights pd df eda_report model_results h1 = (Ok tt, h2, t1).
Proof.
  intros Hrun.
  unfold interactive_analysis, load_and_explore_data, clean_and_preprocess,
    perform_eda, build_and_evaluate_models in Hrun.
  invert_ok Hrun. forget_units.
  do 6 eexists. split; [reflexivity | eassumption].
Qed.

(** X5.  The model table in the dictionary of a run that completes is never
    empty, for either pipeline function: both read its first row with
    [iloc[0]], which raises on an empty table. *)
Theorem model_results_never_empty :
  forall h d h' t table,
    main lib pd h = (Ok (Some d), h', t) \/
    interactive_analysis lib pd h = (Ok (Some d), h', t) ->
    d !! "model_results" = Some (VResults table) ->
    table <> [].
Proof.
  intros h d h' t table [Hrun | Hrun] Hd ->.
  - apply main_completes_table in Hrun.
    destruct Hrun as (final & best & Hd' & Hbest).
    rewrite Hd in Hd'. injection Hd' as <-. discriminate Hbest.
  - apply interactive_completes_table in Hrun.
    destruct Hrun as (df & rep & res & h1 & h2 & t1 & Hd' & Hgi).
    rewrite Hd in Hd'. injection Hd' as <-.
    exact (generate_insights_empty_table df rep h1 tt h2 t1 Hgi).
Qed.

(** ** The cleaning summary *)

(** X9.  In [main], a cleaning summary without a ['shape'] entry, or with it
    but without a ['missing_values'] entry, ends the run with the exception
    of the missing entry right after the cleaning stage: the seven calls of
    loading and cleaning have been made and no later stage is entered. *)
Theorem main_stops_on_missing_summary_entry :
  forall h data_loader df cl df_clean summ e h1 h2 h3 h4 h5 h6 h7,
    returns lib (DataLoader csv_path) h data_loader h1 ->
    returns lib (load_data data_loader) h1 (Some df) h2 ->
    returns lib (get_data_info data_loader) h2 tt h3 ->
    returns lib (get_basic_stats data_loader) h3 tt h4 ->
    returns lib (DataCleaner df) h4 cl h5 ->
    returns lib (clean_data cl) h5 df_clean h6 ->
    returns lib (get_cleaned_summary cl) h6 summ h7 ->
    summary_item pd summ "shape" = Raise e \/
    (exists shape, summary_item pd summ "shape" = Ok shape /\
                   summary_item pd summ "missing_values" = Raise e) ->
    exists t,
      main lib pd h = (Raise e, h7, t) /\
      calls t = take 7 main_calls /\
      stages t = [Load; Clean].
Proof.
  unfold returns.
  intros h data_loader df cl df_clean summ e h1 h2 h3 h4 h5 h6 h7
    E1 E2 E3 E4 E5 E6 E7 Hkey.
  unfold main.
  rewrite !bind_print, (bind_invoke_ok _ _ _ _ _ E1),
    (bind_invoke_ok _ _ _ _ _ E2).
  cbv beta iota.
  rewrite (bind_invoke_ok _ _ _ _ _ E3), (bind_invoke_ok _ _ _ _ _ E4),
    bind_print, (bind_invoke_ok _ _ _ _ _ E5), (bind_invoke_ok _ _ _ _ _ E6),
    (bind_invoke_ok _ _ _ _ _ E7), bind_print.
  destruct Hkey as [Hs | (shape & Hs & Hm)].
  - rewrite Hs, bind_lift_raise. eexists. split; [reflexivity |].
    split; reflexivity.
  - rewrite Hs, bind_lift_ok, bind_print, Hm, bind_lift_raise.
    eexists. split; [reflexivity |]. split; vm_compute; reflexivity.
Qed.

End Properties.

(** ** The ranking *)

Section Ranking.

#[local] Instance by_test_r2_transitive : Transitive by_test_r2.
Proof. intros a b c Hab Hbc. exact (Qle_trans _ _ _ Hbc Hab). Qed.

#[local] Instance by_test_r2_total : Total by_test_r2.
Proof.
  intros a b. unfold by_test_r2.
  destruct (Qlt_le_dec (Test_R2 a) (Test_R2 b)) as [Hlt | Hle].
  - right. apply Qlt_le_weak, Hlt.
  - left. exact Hle.
Qed.

(** C2.  The evaluation table is in descending order of test R² and holds
    the scored models, so the row the scripts read with [iloc[0]] has the
    highest test R² of all; there is no such row only when no model was
    scored. *)
Theorem best_model_is_first :
  forall scored : list row,
    StronglySorted by_test_r2 (rank_by_test_r2 scored) /\
    rank_by_test_r2 scored ≡ₚ scored /\
    match iloc0 (rank_by_test_r2 scored) with
    | Ok best => forall r, r ∈ scored -> (Test_R2 r <= Test_R2 best)%Q
    | Raise _ => scored = []
    end.
Proof.
  intros scored. unfold rank_by_test_r2.
  pose proof (StronglySorted_merge_sort by_test_r2 scored) as Hsorted.
  pose proof (merge_sort_Permutation by_test_r2 scored) as Hperm.
  split; [exact Hsorted |]. split; [exact Hperm |].
  destruct (merge_sort by_test_r2 scored) as [| best rest]; simpl.
  - apply Permutation_nil in Hperm. exact Hperm.
  - intros r Hr. rewrite <- Hperm in Hr.
    apply StronglySorted_cons in Hsorted. destruct Hsorted as [Hall _].
    apply elem_of_cons in Hr. destruct Hr as [-> | Hr].
    + apply Qle_refl.
    + rewrite Forall_forall in Hall. apply Hall, Hr.
Qed.

End Ranking.

(** ** The module-level statements *)

(** ** The warning filters *)

Lemma remove_first_head item filters :
  remove_first item (item :: filters) = filters.
Proof. simpl. rewrite decide_True; reflexivity. Qed.

Lemma remove_first_others item filters :
  other_filters item (remove_first item filters) = other_filters item filters.
Proof.
  unfold other_filters.
  induction filters as [| f rest IH]; simpl; [reflexivity |].
  destruct (decide (f = item)) as [-> | Hne]; simpl.
  - rewrite bool_decide_eq_false_2; [reflexivity | intros Hd; apply Hd].
    reflexivity.
  - rewrite IH. reflexivity.
Qed.

Lemma remove_first_length item filters :
  In item filters -> S (length (remove_first item filters)) = length filters.
Proof.
  induction filters as [| f rest IH]; simpl; [intros [] |].
  intros Hin. destruct (decide (f = item)) as [-> | Hne]; simpl.
  - reflexivity.
  - destruct Hin as [-> | Hin]; [destruct Hne; reflexivity |].
    rewrite (IH Hin). reflexivity.
Qed.

Lemma remove_first_absent item filters :
  ~ In item filters -> remove_first item filters = filters.
Proof.
  induction filters as [| f rest IH]; simpl; [reflexivity |].
  intros Hnin. destruct (decide (f = item)) as [-> | Hne].
  - destruct Hnin. left. reflexivity.
  - rewrite IH; [reflexivity |]. intros Hin. apply Hnin. right. exact Hin.
Qed.

(** C5, as the code has it.  The top-level statements of main.py change the
    warning filters and nothing else: the filter that ignores every warning
    comes to the front, one that was already installed is moved rather than
    doubled, and the other filters stay as they were, so that running the
    statements a second time changes nothing.  Those of jupyter_analysis.py
    change the warning filters in the same way and also configure the
    plotting libraries: a style, a palette, and [rcParams['figure.figsize']]
    set to [(12, 8)]. *)
Theorem module_level_effects :
  forall style_use set_palette g,
    only_warnings_touched main_module_level /\
    warnings_filters (main_module_level g) =
      simple_filter "ignore"
        :: remove_first (simple_filter "ignore") (warnings_filters g) /\
    (In (simple_filter "ignore") (warnings_filters g) ->
     length (warnings_filters (main_module_level g)) =
       length (warnings_filters g)) /\
    (~ In (simple_filter "ignore") (warnings_filters g) ->
     warnings_filters (main_module_level g) =
       simple_filter "ignore" :: warnings_filters g) /\
    other_filters (simple_filter "ignore")
        (warnings_filters (main_module_level g)) =
      other_filters (simple_filter "ignore") (warnings_filters g) /\
    main_module_level (main_module_level g) = main_module_level g /\
    warnings_filters (jupyter_module_level style_use set_palette g) =
      warnings_filters (main_module_level g) /\
    rcParams (jupyter_module_level style_use set_palette g) =
      <["figure.figsize" := RcSize 12 8]>
        (set_palette "husl" (style_use "seaborn-v0_8" (rcParams g))) /\
    rcParams (jupyter_module_level style_use set_palette g)
      !! "figure.figsize" = Some (RcSize 12 8).
Proof.
  intros style_use set_palette g.
  split; [intros g0; reflexivity |].
  split; [reflexivity |].
  split; [intros Hin; simpl; apply remove_first_length, Hin |].
  split; [intros Hnin; simpl; rewrite remove_first_absent; auto |].
  split.
  { unfold main_module_level, filterwarnings. cbn [warnings_filters].
    unfold other_filters at 1. cbn [List.filter].
    rewrite bool_decide_eq_false_2 by (intros Hd; apply Hd; reflexivity).
    apply remove_first_others. }
  split.
  { unfold main_module_level, filterwarnings. cbn [warnings_filters rcParams].
    rewrite remove_first_head. reflexivity. }
  split; [reflexivity |].
  split; [reflexivity |].
  unfold jupyter_module_level. simpl. apply lookup_insert_eq.
Qed.

(** C5 as the spec words it fails for jupyter_analysis.py: started in a fresh
    interpreter, its top-level statements leave a figure size in [rcParams]. *)
Lemma jupyter_module_level_touches_rcParams :
  ~ only_warnings_touched
      (jupyter_module_level Demo.style_use Demo.set_palette).
Proof.
  intros H. specialize (H Demo.fresh).
  assert (Hlook : rcParams (jupyter_module_level Demo.style_use
                              Demo.set_palette Demo.fresh)
                    !! "figure.figsize" = Some (RcSize 12 8))
    by apply lookup_insert_eq.
  rewrite H in Hlook. discriminate Hlook.
Qed.

(** An interpreter in which warnings are already ignored, behind another
    filter: the filter moves to the front and the list keeps its length. *)
Lemma module_level_effects_witness :
  let g := {| warnings_filters :=
                [simple_filter "default"; simple_filter "ignore"];
              rcParams := ∅ |} in
  In (simple_filter "ignore") (warnings_filters g) /\
  warnings_filters (main_module_level g) =
    [simple_filter "ignore"; simple_filter "default"] /\
  length (warnings_filters (main_module_level g)) = 2%nat.
Proof.
  intros g.
  assert (Hin : In (simple_filter "ignore") (warnings_filters g))
    by (right; left; reflexivity).
  destruct (module_level_effects Demo.style_use Demo.set_palette g)
    as (_ & Hfilters & Hlength & _).
  split; [exact Hin |]. split.
  - rewrite Hfilters. reflexivity.
  - exact (Hlength Hin).
Defined.

(** * The scripts at work in the small world *)

Ltac in_list := repeat first [left; reflexivity | right].

(** The missing CSV: both pipeline functions take the early exit. *)
Lemma only_the_failed_load_is_handled_witness :
  load_fails Demo.lib Demo.missing Demo.missing /\
  main Demo.lib Demo.pd Demo.missing =
    (Ok None, Demo.missing, main_early_exit) /\
  interactive_analysis Demo.lib Demo.pd Demo.missing =
    (Ok None, Demo.missing, interactive_early_exit).
Proof.
  assert (Hf : load_fails Demo.lib Demo.missing Demo.missing).
  { exists tt, Demo.missing. split; reflexivity. }
  destruct (only_the_failed_load_is_handled Demo.lib Demo.pd
              Demo.missing Demo.missing main_early_exit) as (Hm & _).
  destruct (only_the_failed_load_is_handled Demo.lib Demo.pd
              Demo.missing Demo.missing interactive_early_exit)
    as (_ & Hi & _).
  split; [exact Hf |]. split.
  - apply Hm. split; [exact Hf | reflexivity].
  - apply Hi. split; [exact Hf | reflexivity].
Defined.

(** The three demo models: the best one by test R² comes first. *)
Lemma best_model_is_first_witness :
  match iloc0 (rank_by_test_r2 (Demo.scores Demo.good)) with
  | Ok best =>
      forall r, r ∈ Demo.scores Demo.good -> (Test_R2 r <= Test_R2 best)%Q
  | Raise _ => Demo.scores Demo.good = []
  end.
Proof.
  exact (proj2 (proj2 (best_model_is_first (Demo.scores Demo.good)))).
Defined.

Example demo_ranking :
  map Model (rank_by_test_r2 (Demo.scores Demo.good)) =
  ["Gradient Boosting"; "Random Forest"; "Linear Regression"].
Proof. vm_compute. reflexivity. Qed.

(** A complete run of [main]: the report names the model that is best after
    tuning. *)
Lemma report_uses_tuned_evaluation_witness :
  let run := main Demo.lib Demo.pd Demo.good in
  run = (Ok (Some (dict_of run.1.1)), run.1.2, run.2) /\
  exists p h1 h2 h3 final_results best,
    Demo.lib _ (hyperparameter_tuning p "Random Forest") h1 = (Ok tt, h2) /\
    Demo.lib _ (hyperparameter_tuning p "Gradient Boosting") h2
      = (Ok tt, h3) /\
    Demo.lib _ (evaluate_models p) h3 = (Ok final_results, run.1.2) /\
    calls run.2 = main_calls /\
    iloc0 final_results = Ok best /\
    List.filter best_model_line (printed run.2) =
      ["- Model: " ++ Model best;
       "- Test R²: " ++ fmt_fixed Demo.pd 4 (Test_R2 best);
       "- Test RMSE: " ++ fmt_fixed Demo.pd 4 (Test_RMSE best);
       "- Test MAE: " ++ fmt_fixed Demo.pd 4 (Test_MAE best);
       "- Model can predict movie ratings with "
         ++ fmt_percent Demo.pd 1 (Test_R2 best) ++ " accuracy";
       "- Average prediction error: ±"
         ++ fmt_fixed Demo.pd 2 (Test_RMSE best) ++ " rating points"].
Proof.
  intros run.
  assert (Hrun : run = (Ok (Some (dict_of run.1.1)), run.1.2, run.2))
    by (apply completed_run; vm_compute; reflexivity).
  split; [exact Hrun |].
  exact (report_uses_tuned_evaluation Demo.lib Demo.pd Demo.good
           _ _ _ Hrun).
Defined.

(** Before tuning Gradient Boosting leads; the report of [main] shows Random
    Forest, which leads after tuning. *)
Example demo_report_is_post_tuning :
  List.filter best_model_line
    (printed (main Demo.lib Demo.pd Demo.good).2) =
  ["- Model: Random Forest";
   "- Test R²: 45/100";
   "- Test RMSE: 95/100";
   "- Test MAE: 75/100";
   "- Model can predict movie ratings with 45% accuracy";
   "- Average prediction error: ±95/100 rating points"].
Proof. vm_compute. reflexivity. Qed.

(** Complete runs of both scripts go through the six stages in order. *)
Lemma stages_in_pipeline_order_witness :
  let run_m := main_script Demo.lib Demo.pd [] Demo.good in
  let run_i := interactive_script Demo.lib Demo.pd [] Demo.good in
  (run_m = (Ok (Some (dict_of run_m.1.1)), run_m.1.2, run_m.2) /\
   stages run_m.2 = pipeline_order) /\
  (run_i = (Ok (Some (dict_of run_i.1.1)), run_i.1.2, run_i.2) /\
   stages run_i.2 = pipeline_order).
Proof.
  intros run_m run_i.
  assert (Hm : run_m =
               (Ok (Some (dict_of run_m.1.1)), run_m.1.2, run_m.2))
    by (apply completed_run; vm_compute; reflexivity).
  assert (Hi : run_i =
               (Ok (Some (dict_of run_i.1.1)), run_i.1.2, run_i.2))
    by (apply completed_run; vm_compute; reflexivity).
  split; (split; [assumption |]).
  - exact (stages_in_pipeline_order Demo.lib Demo.pd [] Demo.good
             _ _ _ (or_introl Hm)).
  - exact (stages_in_pipeline_order Demo.lib Demo.pd [] Demo.good
             _ _ _ (or_intror Hi)).
Defined.


(** Rows the cleaner cannot take: the exception ends the script. *)
Lemma exceptions_propagate_witness :
  let run := main_script Demo.lib Demo.pd [] Demo.broken in
  run = (run.1.1, run.1.2, run.2) /\
  In (Raised (Failure "malformed rows")) run.2 /\
  run.1.1 = Raise (Failure "malformed rows") /\
  exists t0, run.2 = (t0 ++ [Raised (Failure "malformed rows")])%list /\
             raised t0 = [].
Proof.
  intros run.
  assert (Hrun : run = (run.1.1, run.1.2, run.2))
    by (destruct run as [[r h'] t]; reflexivity).
  assert (Hin : In (Raised (Failure "malformed rows")) run.2)
    by (vm_compute; in_list).
  split; [exact Hrun |]. split; [exact Hin |].
  exact (exceptions_propagate Demo.lib Demo.pd [] Demo.broken
           _ _ _ _ (or_intror (or_intror (or_introl Hrun))) Hin).
Defined.

Example demo_broken_run :
  printed (main_script Demo.lib Demo.pd [] Demo.broken).2 =
  [banner 60; "MOVIE RATING PREDICTION SYSTEM"; banner 60;
   nl ++ "1. LOADING DATA..."; nl ++ "2. CLEANING DATA..."].
Proof. vm_compute. reflexivity. Qed.

(** C8 as the spec words it fails: in the small world [main] makes calls
    [interactive_analysis] does not make, and returns another table. *)
Lemma scripts_are_not_the_same_pipeline :
  ~ same_pipeline Demo.lib Demo.pd Demo.good.
Proof.
  intros H.
  pose (run_m := main Demo.lib Demo.pd Demo.good).
  pose (run_i := interactive_analysis Demo.lib Demo.pd Demo.good).
  assert (Hm : run_m =
               (Ok (Some (dict_of run_m.1.1)), run_m.1.2, run_m.2))
    by (apply completed_run; vm_compute; reflexivity).
  assert (Hi : run_i =
               (Ok (Some (dict_of run_i.1.1)), run_i.1.2, run_i.2))
    by (apply completed_run; vm_compute; reflexivity).
  destruct (H _ _ _ _ _ _ Hm Hi) as [Hcalls _].
  vm_compute in Hcalls. discriminate Hcalls.
Qed.

Example demo_tables_differ :
  dict_of (main Demo.lib Demo.pd Demo.good).1.1 !! "model_results" <>
  dict_of (interactive_analysis Demo.lib Demo.pd Demo.good).1.1
    !! "model_results".
Proof. vm_compute. intros [=]. Qed.

(** The missing CSV: the pipeline functions return [None] and the closing
    text is printed all the same. *)
Lemma epilogue_after_failed_load_witness :
  load_fails Demo.lib Demo.missing Demo.missing /\
  main_script Demo.lib Demo.pd [] Demo.missing =
    (Ok None, Demo.missing,
     (main_early_exit ++ map Print main_closing_text)%list) /\
  interactive_script Demo.lib Demo.pd [] Demo.missing =
    (Ok None, Demo.missing,
     (interactive_early_exit ++ map Print interactive_closing_text)%list) /\
  In "ADDITIONAL ANALYSIS SUGGESTIONS"
     (printed (main_script Demo.lib Demo.pd [] Demo.missing).2) /\
  In "ANALYSIS COMPLETE!"
     (printed (interactive_script Demo.lib Demo.pd [] Demo.missing).2).
Proof.
  assert (Hf : load_fails Demo.lib Demo.missing Demo.missing).
  { exists tt, Demo.missing. split; reflexivity. }
  destruct (epilogue_after_failed_load Demo.lib Demo.pd []
              Demo.missing Demo.missing Hf)
    as ((_ & Hm & _ & Hi) & Hsuggestions & Hcomplete & _).
  split; [exact Hf |]. split; [exact Hm |]. split; [exact Hi |].
  split; [exact Hsuggestions | exact Hcomplete].
Defined.

(** The dictionary of a complete run of [main]. *)
Lemma main_result_dictionary_witness :
  let run := main Demo.lib Demo.pd Demo.good in
  let d := dict_of run.1.1 in
  run = (Ok (Some d), run.1.2, run.2) /\
  dom d = list_to_set ["cleaned_data"; "features"; "target";
                       "model_results"; "eda_report"; "predictor"] /\
  (exists p h1 h2 h3 final_results,
     Demo.lib _ (hyperparameter_tuning p "Random Forest") h1 = (Ok tt, h2) /\
     Demo.lib _ (hyperparameter_tuning p "Gradient Boosting") h2
       = (Ok tt, h3) /\
     Demo.lib _ (evaluate_models p) h3 = (Ok final_results, run.1.2) /\
     d !! "model_results" = Some (VResults final_results) /\
     d !! "predictor" = Some (VPredictor p)) /\
  (exists eda_report,
     d !! "eda_report" = Some (VReport eda_report) /\
     (List.filter best_year_line (printed run.2) <> [] <->
      exists yearly, eda_report !! "yearly_ratings" = Some (Some yearly))).
Proof.
  intros run d.
  assert (Hrun : run = (Ok (Some d), run.1.2, run.2))
    by (apply completed_run; vm_compute; reflexivity).
  split; [exact Hrun |].
  exact (main_result_dictionary Demo.lib Demo.pd Demo.good _ _ _ Hrun).
Defined.

Example demo_best_year_line :
  List.filter best_year_line (printed (main Demo.lib Demo.pd Demo.good).2) =
  ["- Best year for movies: year (avg rating: 73/10)"].
Proof. vm_compute. reflexivity. Qed.

(** The two pipeline functions in the small world, where the reporting calls
    are read-only and the default target is the rating. *)
Lemma main_extends_interactive_analysis_witness :
  let run_m := main Demo.lib Demo.pd Demo.good in
  let run_i := interactive_analysis Demo.lib Demo.pd Demo.good in
  let dm := dict_of run_m.1.1 in
  let dj := dict_of run_i.1.1 in
  run_m = (Ok (Some dm), run_m.1.2, run_m.2) /\
  run_i = (Ok (Some dj), run_i.1.2, run_i.2) /\
  reporting_is_read_only Demo.lib /\
  default_target_is_rating Demo.lib /\
  calls run_i.2 = interactive_calls /\
  calls run_m.2 = main_calls /\
  exists p results_df final_results h0 h1,
    returns Demo.lib (evaluate_models p) h0 results_df h1 /\
    dj !! "model_results" = Some (VResults results_df) /\
    dj !! "predictor" = Some (VPredictor p) /\
    dm !! "predictor" = Some (VPredictor p) /\
    dm !! "cleaned_data" = dj !! "data" /\
    dm !! "eda_report" = dj !! "eda_report" /\
    (exists h3 h4,
       returns Demo.lib (hyperparameter_tuning p "Random Forest")
         run_i.1.2 tt h3 /\
       returns Demo.lib (hyperparameter_tuning p "Gradient Boosting")
         h3 tt h4 /\
       returns Demo.lib (evaluate_models p) h4 final_results run_m.1.2) /\
    dm !! "model_results" = Some (VResults final_results).
Proof.
  intros run_m run_i dm dj.
  assert (Hm : run_m = (Ok (Some dm), run_m.1.2, run_m.2))
    by (apply completed_run; vm_compute; reflexivity).
  assert (Hi : run_i = (Ok (Some dj), run_i.1.2, run_i.2))
    by (apply completed_run; vm_compute; reflexivity).
  assert (Hro : reporting_is_read_only Demo.lib)
    by (split; intros self h; reflexivity).
  assert (Hdef : default_target_is_rating Demo.lib)
    by (intros self h; reflexivity).
  destruct (main_extends_interactive_analysis Demo.lib Demo.pd Demo.good
              _ _ _ _ _ _ Hm Hi) as (Hci & Hcm & _ & Hsame).
  split; [exact Hm |]. split; [exact Hi |].
  split; [exact Hro |]. split; [exact Hdef |].
  split; [exact Hci |]. split; [exact Hcm |].
  exact (Hsame Hro Hdef).
Defined.

(** * The further properties in the small world *)

(** The run on rows the cleaner cannot take stops in the cleaning stage. *)
Lemma stages_of_every_run_witness :
  let run := main_script Demo.lib Demo.pd [] Demo.broken in
  run = (run.1.1, run.1.2, run.2) /\
  stages run.2 = [Load; Clean] /\
  stages run.2 `prefix_of` pipeline_order.
Proof.
  intros run.
  assert (Hrun : run = (run.1.1, run.1.2, run.2))
    by (destruct run as [[r h'] t]; reflexivity).
  split; [exact Hrun |]. split; [vm_compute; reflexivity |].
  exact (stages_of_every_run Demo.lib Demo.pd [] Demo.broken
           _ _ _ (or_introl Hrun)).
Defined.

Lemma calls_of_every_run_witness :
  let run_m := main_script Demo.lib Demo.pd [] Demo.broken in
  let run_i := interactive_script Demo.lib Demo.pd [] Demo.good in
  run_m = (run_m.1.1, run_m.1.2, run_m.2) /\
  run_i = (run_i.1.1, run_i.1.2, run_i.2) /\
  calls run_m.2 `prefix_of` main_calls /\
  calls run_i.2 `prefix_of` interactive_calls /\
  forall c, In c (calls run_i.2) ->
            c <> C_get_basic_stats /\ c <> C_get_cleaned_summary /\
            forall model_name, c <> C_hyperparameter_tuning model_name.
Proof.
  intros run_m run_i.
  assert (Hm : run_m = (run_m.1.1, run_m.1.2, run_m.2))
    by (destruct run_m as [[r h'] t]; reflexivity).
  assert (Hi : run_i = (run_i.1.1, run_i.1.2, run_i.2))
    by (destruct run_i as [[r h'] t]; reflexivity).
  split; [exact Hm |]. split; [exact Hi |]. split.
  - exact (proj1 (calls_of_every_run Demo.lib Demo.pd [] Demo.broken
                    run_m.1.1 run_m.1.2 run_m.2) Hm).
  - exact (proj2 (calls_of_every_run Demo.lib Demo.pd [] Demo.good
                    run_i.1.1 run_i.1.2 run_i.2) Hi).
Defined.

(** The complete run of main.py, cut at its first tuning call. *)
Lemma figures_precede_tuning_witness :
  let run := main_script Demo.lib Demo.pd [] Demo.good in
  let t1 := take 30 run.2 in
  let t2 := drop 31 run.2 in
  run = (run.1.1, run.1.2, run.2) /\
  run.2 = (t1 ++ Call (C_hyperparameter_tuning "Random Forest") :: t2)%list /\
  figures t1 = [C_plot_model_comparison; C_plot_predictions] /\
  figures t2 = [].
Proof.
  intros run t1 t2.
  assert (Hrun : run = (run.1.1, run.1.2, run.2))
    by (destruct run as [[r h'] t]; reflexivity).
  assert (Hcut : run.2 = (t1 ++ Call (C_hyperparameter_tuning "Random Forest")
                             :: t2)%list)
    by (vm_compute; reflexivity).
  split; [exact Hrun |]. split; [exact Hcut |].
  exact (figures_precede_tuning Demo.lib Demo.pd [] Demo.good
           _ _ _ t1 "Random Forest" t2 Hrun Hcut).
Defined.

(** The dictionary of a complete run of [interactive_analysis]. *)
Lemma interactive_result_dictionary_witness :
  let run := interactive_analysis Demo.lib Demo.pd Demo.good in
  let d := dict_of run.1.1 in
  run = (Ok (Some d), run.1.2, run.2) /\
  dom d = list_to_set ["data"; "eda_report"; "model_results";
                       "predictor"; "feature_importance"] /\
  exists cl df_clean p results imp h1 h2 h3 h4 h5,
    returns Demo.lib (clean_data cl) h1 df_clean h2 /\
    d !! "data" = Some (VFrame df_clean) /\
    returns Demo.lib (evaluate_models p) h3 results h4 /\
    d !! "model_results" = Some (VResults results) /\
    returns Demo.lib (get_feature_importance p) h5 imp run.1.2 /\
    d !! "feature_importance" = Some (VImportance imp) /\
    d !! "predictor" = Some (VPredictor p).
Proof.
  intros run d.
  assert (Hrun : run = (Ok (Some d), run.1.2, run.2))
    by (apply completed_run; vm_compute; reflexivity).
  split; [exact Hrun |].
  exact (interactive_result_dictionary Demo.lib Demo.pd Demo.good
           _ _ _ Hrun).
Defined.

(** The keys of the two dictionaries in the small world. *)
Lemma result_dictionaries_share_three_keys_witness :
  let run_m := main Demo.lib Demo.pd Demo.good in
  let run_i := interactive_analysis Demo.lib Demo.pd Demo.good in
  let dm := dict_of run_m.1.1 in
  let dj := dict_of run_i.1.1 in
  run_m = (Ok (Some dm), run_m.1.2, run_m.2) /\
  run_i = (Ok (Some dj), run_i.1.2, run_i.2) /\
  dom dm ∩ dom dj =
    list_to_set ["eda_report"; "model_results"; "predictor"] /\
  dom dm ∖ dom dj = list_to_set ["cleaned_data"; "features"; "target"] /\
  dom dj ∖ dom dm = list_to_set ["data"; "feature_importance"].
Proof.
  intros run_m run_i dm dj.
  assert (Hm : run_m = (Ok (Some dm), run_m.1.2, run_m.2))
    by (apply completed_run; vm_compute; reflexivity).
  assert (Hi : run_i = (Ok (Some dj), run_i.1.2, run_i.2))
    by (apply completed_run; vm_compute; reflexivity).
  split; [exact Hm |]. split; [exact Hi |].
  exact (result_dictionaries_share_three_keys Demo.lib Demo.pd
           Demo.good _ _ _ Demo.good _ _ _ Hm Hi).
Defined.

(** The table of a complete run of [main]: the three models, tuned. *)
Lemma model_results_never_empty_witness :
  let run := main Demo.lib Demo.pd Demo.good in
  let d := dict_of run.1.1 in
  let table := rank_by_test_r2 (Demo.scores run.1.2) in
  run = (Ok (Some d), run.1.2, run.2) /\
  d !! "model_results" = Some (VResults table) /\
  table <> [].
Proof.
  intros run d table.
  assert (Hrun : run = (Ok (Some d), run.1.2, run.2))
    by (apply completed_run; vm_compute; reflexivity).
  assert (Hd : d !! "model_results" = Some (VResults table))
    by (vm_compute; reflexivity).
  split; [exact Hrun |]. split; [exact Hd |].
  exact (model_results_never_empty Demo.lib Demo.pd Demo.good
           _ _ _ table (or_introl Hrun) Hd).
Defined.


(** A report with an empty genre frame: the temporal section is printed, the
    genre section is passed over, nothing is called and the state stays. *)
Lemma generate_insights_only_reports_witness :
  let report : gmap string (option nat) :=
    list_to_map [("yearly_ratings", Some 40); ("genre_analysis", Some 0)] in
  let run := generate_insights Demo.pd 1500 report (Demo.scores Demo.good)
               Demo.good in
  run = (run.1.1, run.1.2, run.2) /\
  run.1.2 = Demo.good /\ calls run.2 = [].
Proof.
  intros report run.
  assert (Hrun : run = (run.1.1, run.1.2, run.2))
    by (destruct run as [[r h'] t]; reflexivity).
  split; [exact Hrun |].
  exact (generate_insights_only_reports Demo.pd 1500 report
           (Demo.scores Demo.good) Demo.good _ _ _ Hrun).
Defined.

Lemma generate_insights_sections_witness :
  let report : gmap string (option nat) :=
    list_to_map [("yearly_ratings", Some 40); ("genre_analysis", Some 0)] in
  let run := generate_insights Demo.pd 1500 report (Demo.scores Demo.good)
               Demo.good in
  run = (Ok tt, run.1.2, run.2) /\
  (In temporal_heading (printed run.2) <->
   exists yearly, report !! "yearly_ratings" = Some (Some yearly)) /\
  (In genre_heading (printed run.2) <->
   exists genres,
     report !! "genre_analysis" = Some (Some genres) /\
     (0 < frame_len Demo.pd genres)%Z).
Proof.
  intros report run.
  assert (Hrun : run = (Ok tt, run.1.2, run.2)) by (vm_compute; reflexivity).
  split; [exact Hrun |].
  exact (generate_insights_sections Demo.pd 1500 report
           (Demo.scores Demo.good) Demo.good _ _ _ Hrun).
Defined.

Example demo_empty_genre_frame :
  let report : gmap string (option nat) :=
    list_to_map [("yearly_ratings", Some 40); ("genre_analysis", Some 0)] in
  List.filter (fun line => starts_with nl line)
    (printed (generate_insights Demo.pd 1500 report (Demo.scores Demo.good)
                Demo.good).2) =
  [nl ++ banner 50; nl ++ "1. DATASET OVERVIEW:"; temporal_heading;
   nl ++ "4. MODEL PERFORMANCE:"; nl ++ "5. RECOMMENDATIONS:"].
Proof. vm_compute. reflexivity. Qed.

(** A cleaning summary without a ['shape'] entry: [main] ends with
    [KeyError] after the cleaning stage. *)
Lemma main_stops_on_missing_summary_entry_witness :
  returns Demo.lib (DataLoader csv_path) Demo.good tt Demo.good /\
  returns Demo.lib (load_data tt) Demo.good (Some 1500) Demo.good /\
  returns Demo.lib (get_cleaned_summary tt) Demo.good tt Demo.good /\
  summary_item Demo.pd_without_shape tt "shape" = Raise (KeyError "shape") /\
  exists t,
    main Demo.lib Demo.pd_without_shape Demo.good =
      (Raise (KeyError "shape"), Demo.good, t) /\
    calls t = take 7 main_calls /\
    stages t = [Load; Clean].
Proof.
  split; [reflexivity |]. split; [reflexivity |]. split; [reflexivity |].
  split; [reflexivity |].
  exact (main_stops_on_missing_summary_entry Demo.lib Demo.pd_without_shape
           Demo.good tt 1500 tt 1500 tt (KeyError "shape")
           Demo.good Demo.good Demo.good Demo.good Demo.good Demo.good
           Demo.good
           eq_refl eq_refl eq_refl eq_refl eq_refl eq_refl eq_refl
           (or_introl eq_refl)).
Defined.
